(** * CloudMart API (main.py): catalog, cart, orders and bearer tokens

    A shallow embedding of the request handlers of [main.py] and of the
    two services they call (the Cosmos DB containers and the JOSE token
    library), followed by the properties of the handlers.

    Conventions.
    - Python [str] is [string], Python [int] is [Z], a [dict] with a fixed
      set of keys is a record, the claim set of a token is a [gmap].
    - A [datetime] is the number of microseconds since the epoch (UTC).
    - Prices are JSON numbers with two decimals; they are kept in
      hundredths ([199.99] is [19999]).  No handler computes with them.
    - The handlers run in a state-and-exception monad over the three
      module-level container handles.  What a handler wrote before an
      exception was raised stays written.
    - [uuid.uuid4()] and [datetime.utcnow()] are inputs of the handlers
      that call them. *)

From stdpp Require Import base list strings gmap.
From Stdlib Require Import ZArith Lia Ascii.

Open Scope Z_scope.

(** ** Exceptions *)

Inductive exn : Type :=
| HTTPException (status_code : Z) (detail : string)
| JWTError (msg : string)
| CosmosHttpResponseError (msg : string)
| CosmosResourceExistsError (msg : string)
| CosmosResourceNotFoundError (msg : string)
| KeyError (key : string)
| IndexError (msg : string)
| AttributeError (msg : string)
| ServiceRequestError (msg : string).

(** [isinstance(e, exceptions.CosmosHttpResponseError)]: the two resource
    errors are subclasses of it; a transport failure
    ([ServiceRequestError]) is not. *)
Definition is_CosmosHttpResponseError (e : exn) : bool :=
  match e with
  | CosmosHttpResponseError _
  | CosmosResourceExistsError _
  | CosmosResourceNotFoundError _ => true
  | _ => false
  end.

Definition is_CosmosResourceExistsError (e : exn) : bool :=
  match e with CosmosResourceExistsError _ => true | _ => false end.

Definition is_JWTError (e : exn) : bool :=
  match e with JWTError _ => true | _ => false end.

(** [str(e)] *)
Definition str (e : exn) : string :=
  match e with
  | HTTPException _ detail => detail
  | JWTError msg => msg
  | CosmosHttpResponseError msg => msg
  | CosmosResourceExistsError msg => msg
  | CosmosResourceNotFoundError msg => msg
  | KeyError key => "'" +:+ key +:+ "'"
  | IndexError msg => msg
  | AttributeError msg => msg
  | ServiceRequestError msg => msg
  end.

Inductive outcome (A : Type) : Type :=
| Returned (a : A)
| Raised (e : exn).
Arguments Returned {A} a.
Arguments Raised {A} e.

#[export] Instance outcome_ret : MRet outcome := λ A a, Returned a.
#[export] Instance outcome_bind : MBind outcome := λ A B f o,
  match o with
  | Returned a => f a
  | Raised e => Raised e
  end.

(** ** Documents *)

Record product : Type := Product {
  p_id : string;
  p_name : string;
  p_description : string;
  p_category : option string;
  p_price : Z;
  p_stock : Z;
  p_image : option string
}.

Record cart_doc : Type := CartDoc {
  c_id : string;
  c_user_id : string;
  c_product_id : string;
  c_quantity : Z
}.

Record order_line : Type := OrderLine {
  l_product_id : string;
  l_quantity : Z
}.

Definition datetime : Type := Z.

Record order : Type := Order {
  o_id : string;
  o_user_id : string;
  o_items : list order_line;
  o_status : string;
  o_created_at : datetime
}.

(** The request body of [POST /api/v1/cart/items]. *)
Record CartItem : Type := MkCartItem {
  product_id : string;
  quantity : Z
}.

(** One element of the list [get_cart] returns. *)
Record cart_line : Type := CartLine {
  line_id : string;
  line_name : string;
  line_price : Z;
  line_quantity : Z;
  line_image : string;
  line_category : string
}.

#[export] Instance product_eq_dec : EqDecision product.
Proof. solve_decision. Defined.
#[export] Instance cart_doc_eq_dec : EqDecision cart_doc.
Proof. solve_decision. Defined.
#[export] Instance order_line_eq_dec : EqDecision order_line.
Proof. solve_decision. Defined.
#[export] Instance order_eq_dec : EqDecision order.
Proof. solve_decision. Defined.
#[export] Instance cart_line_eq_dec : EqDecision cart_line.
Proof. solve_decision. Defined.

(** What a container needs to know of its documents: the [id] and the
    value of the partition key.  [delete_item] is called with
    [partition_key=DEFAULT_USER] on the cart, so the cart (and, like it,
    the orders) is partitioned on [user_id]; the catalog is taken to be
    partitioned on [category]. *)
Class Document (A : Type) : Type := {
  doc_id : A → string;
  doc_pk : A → option string
}.

#[export] Instance product_document : Document product :=
  {| doc_id := p_id; doc_pk := p_category |}.
#[export] Instance cart_document : Document cart_doc :=
  {| doc_id := c_id; doc_pk := λ c, Some (c_user_id c) |}.
#[export] Instance order_document : Document order :=
  {| doc_id := o_id; doc_pk := λ o, Some (o_user_id o) |}.

Definition doc_key `{Document A} (d : A) : option string * string :=
  (doc_pk d, doc_id d).

(** ** A Cosmos DB container

    [items] are the stored documents in the order a query yields them.
    [fault], when set, is the exception every call on the container
    raises (store unreachable, request rejected). *)

Record container (A : Type) : Type := Container {
  items : list A;
  fault : option exn
}.
Arguments Container {A} items fault.
Arguments items {A} c.
Arguments fault {A} c.

Section container_ops.
Context {A : Type} `{Document A}.

Definition guarded {B : Type} (c : container A)
    (k : outcome (B * container A)) : outcome (B * container A) :=
  match fault c with
  | Some e => Raised e
  | None => k
  end.

(** [list(c.query_items(sql, ...))] with the [WHERE] clause [P]. *)
Definition query_items (P : A → Prop) `{∀ x, Decision (P x)}
    (c : container A) : outcome (list A * container A) :=
  guarded c (Returned (filter P (items c), c)).

Definition has_key (k : option string * string) (l : list A) : bool :=
  bool_decide (k ∈ doc_key <$> l).

(** [c.create_item(d)]: refuses a document whose id is taken. *)
Definition create_item (d : A) (c : container A)
    : outcome (unit * container A) :=
  guarded c
    (if has_key (doc_key d) (items c)
     then Raised (CosmosResourceExistsError "Conflict")
     else Returned (tt, Container (items c ++ [d]) (fault c))).

Fixpoint replace_doc (d : A) (l : list A) : list A :=
  match l with
  | [] => []
  | x :: l' =>
      if decide (doc_key x = doc_key d) then d :: l'
      else x :: replace_doc d l'
  end.

(** [c.upsert_item(d)]: replaces the document with the same id, or
    adds [d]. *)
Definition upsert_item (d : A) (c : container A)
    : outcome (unit * container A) :=
  guarded c
    (if has_key (doc_key d) (items c)
     then Returned (tt, Container (replace_doc d (items c)) (fault c))
     else Returned (tt, Container (items c ++ [d]) (fault c))).

Fixpoint remove_doc (k : option string * string) (l : list A) : list A :=
  match l with
  | [] => []
  | x :: l' =>
      if decide (doc_key x = k) then l' else x :: remove_doc k l'
  end.

(** [c.delete_item(id, partition_key=pk)] *)
Definition delete_item (id pk : string) (c : container A)
    : outcome (unit * container A) :=
  guarded c
    (if has_key (Some pk, id) (items c)
     then Returned (tt, Container (remove_doc (Some pk, id) (items c)) (fault c))
     else Raised (CosmosResourceNotFoundError "NotFound")).
End container_ops.

(** ** The module-level handles

    [None] is the Python [None] the handles hold when [init_cosmos] found
    no endpoint or key. *)

Record world : Type := World {
  products_container : option (container product);
  cart_container : option (container cart_doc);
  orders_container : option (container order)
}.

Definition M (A : Type) : Type := world → world * outcome A.

#[export] Instance M_ret : MRet M := λ A a w, (w, Returned a).
#[export] Instance M_bind : MBind M := λ A B f m w,
  match m w with
  | (w', Returned a) => f a w'
  | (w', Raised e) => (w', Raised e)
  end.

Definition raise {A : Type} (e : exn) : M A := λ w, (w, Raised e).

(** [try: body except <class> as e: handler e].  [catches] is the
    [isinstance] test of the except clause. *)
Definition try_except {A : Type} (body : M A) (catches : exn → bool)
    (handler : exn → M A) : M A := λ w,
  match body w with
  | (w', Returned a) => (w', Returned a)
  | (w', Raised e) => if catches e then handler e w' else (w', Raised e)
  end.

(** [except Exception] *)
Definition Exception (e : exn) : bool := true.

Record handle (A : Type) : Type := Handle {
  proxy : world → option (container A);
  rebind : container A → world → world
}.
Arguments proxy {A} h w.
Arguments rebind {A} h c w.

Definition products : handle product :=
  Handle product products_container
    (λ c w, World (Some c) (cart_container w) (orders_container w)).
Definition cart : handle cart_doc :=
  Handle cart_doc cart_container
    (λ c w, World (products_container w) (Some c) (orders_container w)).
Definition orders : handle order :=
  Handle order orders_container
    (λ c w, World (products_container w) (cart_container w) (Some c)).

(** [bool(handle)]: a container proxy is truthy, [None] is not. *)
Definition configured {A : Type} (h : handle A) : M bool :=
  λ w, (w, Returned (bool_decide (is_Some (proxy h w)))).

(** A method call on a handle.  On [None] Python raises
    [AttributeError]. *)
Definition call {A B : Type} (h : handle A)
    (op : container A → outcome (B * container A)) : M B := λ w,
  match proxy h w with
  | None => (w, Raised (AttributeError "'NoneType' object has no attribute"))
  | Some c =>
      match op c with
      | Returned (b, c') => (rebind h c' w, Returned b)
      | Raised e => (w, Raised e)
      end
  end.

(** [for x in l: body x] *)
Fixpoint for_each {A : Type} (l : list A) (body : A → M unit) : M unit :=
  match l with
  | [] => mret tt
  | x :: l' => body x ≫= λ _, for_each l' body
  end.

(** ** The JOSE library ([jose.jwt])

    The library is not part of the repository.  It is modelled as far as
    the handlers use it: a token is a protected header naming the
    algorithm, a claim set and a signature over both; [jwt.encode] signs
    and serialises, [jwt.decode] parses, checks the algorithm and the
    signature, then validates the registered claims with the options and
    arguments the handlers leave at their defaults (no audience, issuer,
    subject or access token given, no leeway).  The MAC, the compact
    serialisation and the reading of a string as an integer are left
    abstract.  Claim values are strings and integers, and [datetime]s
    before encoding. *)

Inductive jval : Type :=
| JStr (s : string)
| JNum (n : Z)
| JDate (d : datetime).

Record jws : Type := Jws {
  jws_alg : string;
  jws_claims : gmap string jval;
  jws_sig : string
}.

Class Jose : Type := {
  (** [hmac key alg claims]: the tag of the signing input under [key] *)
  hmac : string → string → gmap string jval → string;
  (** the compact serialisation, and its parser; [None] on a string that
      is not three well-formed segments *)
  jws_compact : jws → string;
  jws_parse : string → option jws;
  (** [int(s)] of a [str]; [None] when it raises [ValueError] *)
  int_of_str : string → option Z
}.

(** The parser reads the serialised token [t] back. *)
Definition reads_back {J : Jose} (t : jws) : Prop :=
  jws_parse (jws_compact t) = Some t.

(** [timegm(d.utctimetuple())]: whole seconds since the epoch *)
Definition timegm (d : datetime) : Z := d `div` 1000000.

(** [timedelta(minutes=m)] *)
Definition timedelta_minutes (m : Z) : Z := m * 60 * 1000000.

Definition intdate (v : jval) : jval :=
  match v with
  | JDate d => JNum (timegm d)
  | _ => v
  end.

(** [jwt.encode(claims, key, algorithm=algorithm)] *)
Definition jwt_encode {J : Jose} (claims : gmap string jval)
    (key algorithm : string) : string :=
  let claims := alter intdate "nbf" (alter intdate "iat"
                  (alter intdate "exp" claims)) in
  jws_compact (Jws algorithm claims (hmac key algorithm claims)).

(** [int(claims[k])] inside [try ... except ValueError]; a [datetime]
    does not come out of the parser. *)
Definition int_claim {J : Jose} (v : jval) : option Z :=
  match v with
  | JNum n => Some n
  | JStr s => int_of_str s
  | JDate _ => None
  end.

Definition validate_iat {J : Jose} (claims : gmap string jval)
    : outcome unit :=
  match claims !! "iat" with
  | None => Returned tt
  | Some v =>
      match int_claim v with
      | Some _ => Returned tt
      | None => Raised (JWTError "Issued At claim (iat) must be an integer.")
      end
  end.

Definition validate_nbf {J : Jose} (now : datetime)
    (claims : gmap string jval) : outcome unit :=
  match claims !! "nbf" with
  | None => Returned tt
  | Some v =>
      match int_claim v with
      | Some nbf =>
          if timegm now <? nbf
          then Raised (JWTError "The token is not yet valid (nbf)")
          else Returned tt
      | None => Raised (JWTError "Not Before claim (nbf) must be an integer.")
      end
  end.

Definition validate_exp {J : Jose} (now : datetime)
    (claims : gmap string jval) : outcome unit :=
  match claims !! "exp" with
  | None => Returned tt
  | Some v =>
      match int_claim v with
      | Some exp =>
          if exp <? timegm now
          then Raised (JWTError "Signature has expired.")
          else Returned tt
      | None =>
          Raised (JWTError "Expiration Time claim (exp) must be an integer.")
      end
  end.

(** No audience is given to [jwt.decode]: a token that names one is
    refused. *)
Definition validate_aud (claims : gmap string jval) : outcome unit :=
  match claims !! "aud" with
  | None => Returned tt
  | Some (JStr _) => Raised (JWTError "Invalid audience")
  | Some _ => Raised (JWTError "Invalid claim format in token")
  end.

Definition validate_sub (claims : gmap string jval) : outcome unit :=
  match claims !! "sub" with
  | None | Some (JStr _) => Returned tt
  | Some _ => Raised (JWTError "Subject must be a string.")
  end.

Definition validate_jti (claims : gmap string jval) : outcome unit :=
  match claims !! "jti" with
  | None | Some (JStr _) => Returned tt
  | Some _ => Raised (JWTError "JWT ID must be a string.")
  end.

(** No access token is given to [jwt.decode]. *)
Definition validate_at_hash (claims : gmap string jval) : outcome unit :=
  match claims !! "at_hash" with
  | None => Returned tt
  | Some _ =>
      Raised (JWTError
        "No access_token provided to compare against at_hash claim.")
  end.

(** [_validate_claims], in the order of the library *)
Definition validate_claims {J : Jose} (now : datetime)
    (claims : gmap string jval) : outcome unit :=
  validate_iat claims;;
  validate_nbf now claims;;
  validate_exp now claims;;
  validate_aud claims;;
  validate_sub claims;;
  validate_jti claims;;
  validate_at_hash claims.

(** [jwt.decode(token, key, algorithms=algorithms)] at time [now] *)
Definition jwt_decode {J : Jose} (now : datetime) (token key : string)
    (algorithms : list string) : outcome (gmap string jval) :=
  match jws_parse token with
  | None => Raised (JWTError "Error decoding token headers.")
  | Some t =>
      if negb (bool_decide (jws_alg t ∈ algorithms)) then
        Raised (JWTError "The specified alg value is not allowed")
      else if negb (bool_decide
                 (jws_sig t = hmac key (jws_alg t) (jws_claims t))) then
        Raised (JWTError "Signature verification failed.")
      else
        validate_claims now (jws_claims t);;
        Returned (jws_claims t)
  end.

(** ** JWT AUTH *)

Definition DEMO_USERNAME : string := "demo".
Definition DEMO_PASSWORD : string := "demo123".

(** The development default of [JWT_SECRET_KEY]. *)
Definition JWT_SECRET_KEY : string := "cloudmart-dev-secret-key".
Definition JWT_ALGORITHM : string := "HS256".
Definition ACCESS_TOKEN_EXPIRE_MINUTES : Z := 60.

Record LoginRequest : Type := MkLoginRequest {
  username : string;
  password : string
}.

(** [expires_delta or timedelta(minutes=ACCESS_TOKEN_EXPIRE_MINUTES)]:
    [None] and the zero [timedelta] are falsy. *)
Definition or_default (expires_delta : option Z) : Z :=
  match expires_delta with
  | Some d => if d =? 0 then timedelta_minutes ACCESS_TOKEN_EXPIRE_MINUTES
              else d
  | None => timedelta_minutes ACCESS_TOKEN_EXPIRE_MINUTES
  end.

Definition create_access_token {J : Jose} (utcnow : datetime)
    (data : gmap string jval) (expires_delta : option Z) : string :=
  let to_encode := data in
  let expire := utcnow + or_default expires_delta in
  let to_encode := <["exp" := JDate expire]> to_encode in
  let encoded_jwt := jwt_encode to_encode JWT_SECRET_KEY JWT_ALGORITHM in
  encoded_jwt.

(** [s.split(" ", 1)] *)
Fixpoint split_space_1 (s : string) : list string :=
  match s with
  | EmptyString => [EmptyString]
  | String a s' =>
      if Ascii.eqb a " " then [EmptyString; s']
      else match split_space_1 s' with
           | h :: t => String a h :: t
           | [] => []
           end
  end.

(** [get_current_user]: the [Authorization] header is [None] when the
    request carries none.  The empty string is falsy.  The function
    returns what [payload.get("sub")] holds, which [jwt.decode] has
    checked to be a string when it is there. *)
Definition get_current_user {J : Jose} (utcnow : datetime)
    (authorization : option string) : outcome jval :=
  match authorization with
  | None => Raised (HTTPException 401 "Not authenticated")
  | Some authorization =>
      if String.eqb authorization EmptyString
         || negb (String.prefix "Bearer " authorization)
      then Raised (HTTPException 401 "Not authenticated")
      else
        match split_space_1 authorization !! 1%nat with
        | None => Raised (IndexError "list index out of range")
        | Some token =>
            match jwt_decode utcnow token JWT_SECRET_KEY [JWT_ALGORITHM] with
            | Returned payload =>
                match payload !! "sub" with
                | None =>
                    Raised (HTTPException 401 "Invalid token payload")
                | Some username => Returned username
                end
            | Raised e =>
                if is_JWTError e
                then Raised (HTTPException 401 "Invalid or expired token")
                else Raised e
            end
        end
  end.

Definition DEFAULT_USER : string := "demo_user".

(** ** Seeding *)

Definition seed_catalog : list product := [
  Product "1" "Wireless Headphones Pro"
    "Premium noise-cancelling wireless headphones with 30hr battery"
    (Some "Electronics") 19999 50 (Some "🎧");
  Product "2" "Smart Watch Elite"
    "Advanced fitness tracking smartwatch with GPS"
    (Some "Electronics") 29999 30 (Some "⌚");
  Product "3" "Running Shoes X1"
    "Lightweight breathable running shoes"
    (Some "Sports") 8999 100 (Some "👟");
  Product "4" "Laptop Backpack Pro"
    "Water-resistant 15.6 inch laptop backpack"
    (Some "Accessories") 4999 75 (Some "🎒");
  Product "5" "Coffee Maker Deluxe"
    "12-cup programmable coffee maker"
    (Some "Home") 7999 40 (Some "☕");
  Product "6" "Yoga Mat Premium"
    "Extra thick eco-friendly yoga mat"
    (Some "Sports") 3599 60 (Some "🧘");
  Product "7" "Bluetooth Speaker"
    "Portable waterproof bluetooth speaker"
    (Some "Electronics") 5999 45 (Some "🔊");
  Product "8" "Desk Lamp LED"
    "Adjustable LED desk lamp with USB port"
    (Some "Home") 2999 80 (Some "💡")
].

Definition pass : M unit := mret tt.

Definition seed_products : M unit :=
  for_each seed_catalog (λ p,
    try_except (call products (create_item p))
      is_CosmosResourceExistsError (λ _, pass)).

(** What the calls of [init_cosmos] into the SDK give, in the order they
    are made: [CosmosClient(COSMOS_ENDPOINT, COSMOS_KEY)],
    [client.get_database_client(DATABASE_NAME)] and the three
    [database.get_container_client(...)].  Each of them may raise. *)
Record sdk : Type := Sdk {
  CosmosClient : outcome unit;
  get_database_client : outcome unit;
  get_container_client_products : outcome (container product);
  get_container_client_cart : outcome (container cart_doc);
  get_container_client_orders : outcome (container order)
}.

(** The value of a call that does not touch the handles. *)
Definition eval {A : Type} (o : outcome A) : M A := λ w, (w, o).

(** [handle = c] on a module-level handle *)
Definition assign {A : Type} (h : handle A) (c : container A) : M unit :=
  λ w, (rebind h c w, Returned tt).

Definition init_cosmos (COSMOS_ENDPOINT COSMOS_KEY : string) (azure : sdk)
    : M unit :=
  if String.eqb COSMOS_ENDPOINT EmptyString
     || String.eqb COSMOS_KEY EmptyString then
    mret tt
  else
    eval (CosmosClient azure);;
    eval (get_database_client azure);;
    c ← eval (get_container_client_products azure); assign products c;;
    c ← eval (get_container_client_cart azure); assign cart c;;
    c ← eval (get_container_client_orders azure); assign orders c;;
    try_except
      (items ← call products (query_items (λ _, True));
       if (length items =? 0)%nat then seed_products else mret tt)
      Exception (λ _, pass).

(** ** Routes *)

(** A handler that answers [{"error": ...}] in place of its result. *)
Inductive reply (A : Type) : Type :=
| Body (a : A)
| ErrorObj (error : string).
Arguments Body {A} a.
Arguments ErrorObj {A} error.

(** [{"message": m}] *)
Inductive message : Type := Message (m : string).

(** [bool(s)] of an optional string parameter *)
Definition truthy (s : option string) : bool :=
  match s with
  | Some s => negb (String.eqb s EmptyString)
  | None => false
  end.

(** [CONTAINS(s, q)]: [q] occurs in [s] *)
Fixpoint contains (s q : string) : bool :=
  String.prefix q s ||
  match s with
  | EmptyString => false
  | String _ s' => contains s' q
  end.

Definition list_products (category : option string) : M (list product) :=
  ok ← configured products;
  if negb ok then mret []
  else
    try_except
      (if truthy category then
         call products (query_items (λ c, p_category c = category))
       else
         call products (query_items (λ _, True)))
      Exception (λ _, mret []).

Definition search_products (q : string) : M (list product) :=
  ok ← configured products;
  if negb ok then mret []
  else
    try_except
      (call products (query_items (λ c,
         contains (p_name c) q
         || from_option (λ k, contains k q) false (p_category c))))
      Exception (λ _, mret []).

Definition get_product (product_id : string) : M product :=
  ok ← configured products;
  if negb ok then raise (HTTPException 503 "Database not available")
  else
    try_except
      (items ← call products (query_items (λ c, p_id c = product_id));
       match items with
       | p :: _ => mret p
       | [] => raise (HTTPException 404 "Product not found")
       end)
      is_CosmosHttpResponseError
      (λ _, raise (HTTPException 404 "Product not found")).

(** [SELECT DISTINCT c.category FROM c]: one row per distinct value; a
    document without the field gives the row [{}]. *)
Definition query_distinct_category (c : container product)
    : outcome (list (option string) * container product) :=
  guarded c (Returned (remove_dups (p_category <$> items c), c)).

(** [[item["category"] for item in items]] *)
Fixpoint category_of_each (items : list (option string)) : M (list string) :=
  match items with
  | [] => mret []
  | Some k :: rest => ks ← category_of_each rest; mret (k :: ks)
  | None :: _ => raise (KeyError "category")
  end.

Definition get_categories : M (list string) :=
  ok ← configured products;
  if negb ok then mret []
  else
    try_except
      (items ← call products query_distinct_category;
       category_of_each items)
      Exception (λ _, mret []).

(** The loop of [get_cart]; [enriched_cart] is the list built so far. *)
Fixpoint enrich (items : list cart_doc) (enriched_cart : list cart_line)
    : M (list cart_line) :=
  match items with
  | [] => mret enriched_cart
  | item :: rest =>
      product_items ←
        call products (query_items (λ c, p_id c = c_product_id item));
      match product_items with
      | [] => enrich rest enriched_cart
      | product :: _ =>
          enrich rest (enriched_cart ++ [
            CartLine (p_id product) (p_name product) (p_price product)
              (c_quantity item)
              (default "🛒" (p_image product))
              (default "General" (p_category product))])
      end
  end.

Definition get_cart (current_user : jval) : M (reply (list cart_line)) :=
  okc ← configured cart;
  okp ← configured products;
  if negb okc || negb okp then mret (Body [])
  else
    try_except
      (items ← call cart (query_items (λ c, c_user_id c = DEFAULT_USER));
       enriched_cart ← enrich items [];
       mret (Body enriched_cart))
      Exception (λ e, mret (ErrorObj (str e))).

Definition set_quantity (cart_item : cart_doc) (q : Z) : cart_doc :=
  CartDoc (c_id cart_item) (c_user_id cart_item) (c_product_id cart_item) q.

(** [uuid4] is the value [str(uuid.uuid4())] takes if it is evaluated. *)
Definition add_to_cart (uuid4 : string) (item : CartItem)
    (current_user : jval) : M (reply message) :=
  ok ← configured cart;
  if negb ok then mret (ErrorObj "Database not available")
  else
    try_except
      (existing ← call cart (query_items (λ c,
         c_user_id c = DEFAULT_USER ∧ c_product_id c = product_id item));
       match existing with
       | cart_item :: _ =>
           call cart (upsert_item (set_quantity cart_item (quantity item)))
       | [] =>
           call cart (create_item
             (CartDoc uuid4 DEFAULT_USER (product_id item) (quantity item)))
       end;;
       mret (Body (Message "Saved to Cosmos DB")))
      Exception (λ e, mret (ErrorObj (str e))).

Definition remove_from_cart (product_id : string) (current_user : jval)
    : M (reply message) :=
  ok ← configured cart;
  if negb ok then mret (ErrorObj "Database not available")
  else
    try_except
      (items ← call cart (query_items (λ c,
         c_user_id c = DEFAULT_USER ∧ c_product_id c = product_id));
       for_each items (λ item,
         call cart (delete_item (c_id item) DEFAULT_USER));;
       mret (Body (Message "Removed from Cosmos DB")))
      Exception (λ e, mret (ErrorObj (str e))).

(** [o_created_at] holds the instant whose ISO-8601 text
    ([utcnow.isoformat()]) the document stores. *)
Definition create_order (uuid4 : string) (utcnow : datetime)
    (current_user : jval) : M (reply order) :=
  oko ← configured orders;
  okc ← configured cart;
  if negb oko || negb okc then mret (ErrorObj "Database not available")
  else
    try_except
      (cart_items ←
         call cart (query_items (λ c, c_user_id c = DEFAULT_USER));
       let order :=
         Order uuid4 DEFAULT_USER
           ((λ i, OrderLine (c_product_id i) (c_quantity i)) <$> cart_items)
           "confirmed" utcnow in
       call orders (create_item order);;
       for_each cart_items (λ item,
         call cart (delete_item (c_id item) DEFAULT_USER));;
       mret (Body order))
      Exception (λ e, mret (ErrorObj (str e))).

Definition get_orders (current_user : jval) : M (list order) :=
  ok ← configured orders;
  if negb ok then mret []
  else
    try_except
      (call orders (query_items (λ c, o_user_id c = DEFAULT_USER)))
      Exception (λ _, mret []).

(** [Depends(get_current_user)]: the dependency is resolved from the
    [Authorization] header before the handler runs; its exception is the
    response. *)
Definition Depends {J : Jose} {A : Type} (utcnow : datetime)
    (authorization : option string) (handler : jval → M A) : M A :=
  match get_current_user utcnow authorization with
  | Returned current_user => handler current_user
  | Raised e => raise e
  end.

Record token_response : Type := TokenResponse {
  access_token : string;
  token_type : string
}.

Definition auth_login {J : Jose} (utcnow : datetime) (body : LoginRequest)
    : outcome token_response :=
  if negb (String.eqb (username body) DEMO_USERNAME)
     || negb (String.eqb (password body) DEMO_PASSWORD)
  then Raised (HTTPException 401 "Invalid credentials")
  else
    let token :=
      create_access_token utcnow {["sub" := JStr (username body)]} None in
    Returned (TokenResponse token "bearer").

(** ** Well-formed stores

    Cosmos DB keeps the pair (partition key, id) unique in a container.
    The cart keeps at most one line per (user, product). *)

Definition unique_keys `{Document A} (l : list A) : Prop :=
  NoDup (doc_key <$> l).

Definition user_product (c : cart_doc) : string * string :=
  (c_user_id c, c_product_id c).

Definition one_line_per_product (l : list cart_doc) : Prop :=
  NoDup (user_product <$> l).

(** The same cart with other storage ids. *)
Definition relabel (f : cart_doc → string) (c : cart_doc) : cart_doc :=
  CartDoc (f c) (c_user_id c) (c_product_id c) (c_quantity c).

Definition relabel_cart (f : cart_doc → string) (w : world) : world :=
  World (products_container w)
    ((λ cc, Container (relabel f <$> items cc) (fault cc)) <$> cart_container w)
    (orders_container w).

(** A small token backend to run the handlers on: the wire form of a
    token is its subject, every token expires at second 3600, and the tag
    is the key. *)
Definition table_jose : Jose := {|
  hmac := λ key alg claims, key;
  jws_compact := λ t,
    match jws_claims t !! "sub" with
    | Some (JStr s) => s
    | _ => EmptyString
    end;
  jws_parse := λ s,
    if String.eqb s EmptyString then None
    else Some (Jws "HS256"
                 (<["exp" := JNum 3600]> {["sub" := JStr s]})
                 (if String.eqb s "mallory" then "forged"
                  else "cloudmart-dev-secret-key"));
  int_of_str := λ _, None
|}.

(** A second token backend: the wire form of a token is the name of its
    algorithm, the subject is "demo", there is no expiry, and the tag is
    the key. *)
Definition header_jose : Jose := {|
  hmac := λ key alg claims, key;
  jws_compact := λ t, jws_alg t;
  jws_parse := λ s,
    if String.eqb s EmptyString then None
    else Some (Jws s {["sub" := JStr "demo"]} "cloudmart-dev-secret-key");
  int_of_str := λ _, None
|}.

(** * Properties *)

(** ** Running the monad *)

Ltac unfold_monad :=
  unfold mbind, M_bind, mret, M_ret, try_except, raise, pass, call,
    configured, Exception in *.

Lemma query_items_faulty `{Document A} (P : A → Prop)
    `{∀ x, Decision (P x)} (c : container A) e :
  fault c = Some e → query_items P c = Raised e.
Proof. intros Hf. unfold query_items, guarded. by rewrite Hf. Qed.

Lemma get_product_run product_id w :
  get_product product_id w =
    (w,
     match products_container w with
     | None => Raised (HTTPException 503 "Database not available")
     | Some pc =>
         match fault pc with
         | Some e =>
             if is_CosmosHttpResponseError e
             then Raised (HTTPException 404 "Product not found")
             else Raised e
         | None =>
             match filter (λ c, p_id c = product_id) (items pc) with
             | p :: _ => Returned p
             | [] => Raised (HTTPException 404 "Product not found")
             end
         end
     end).
Proof.
  destruct w as [[pc|] cc oc]; [|reflexivity].
  unfold get_product. unfold_monad. simpl.
  unfold query_items, guarded.
  destruct (fault pc) as [e|] eqn:Hf.
  - by destruct (is_CosmosHttpResponseError e).
  - destruct pc as [l f]; simpl in *; subst.
    by destruct (filter _ l).
Qed.

(** ** Lists of documents *)

Lemma filter_first_of_unique {A B : Type} `{EqDecision B} (f : A → B)
    (l : list A) (p : A) :
  NoDup (f <$> l) → p ∈ l →
  ∃ rest, filter (λ x, f x = f p) l = p :: rest.
Proof.
  induction l as [|x l IH]; intros Hnd Hin.
  - by apply elem_of_nil in Hin.
  - rewrite fmap_cons in Hnd. apply NoDup_cons in Hnd as [Hx Hnd].
    apply elem_of_cons in Hin as [->|Hin].
    + rewrite filter_cons_True by done. eauto.
    + rewrite filter_cons_False; [by apply IH|].
      intros Heq. apply Hx. rewrite Heq. by apply list_elem_of_fmap_2.
Qed.

Lemma filter_nil_of_absent {A : Type} (P : A → Prop) `{∀ x, Decision (P x)}
    (l : list A) :
  (∀ x, x ∈ l → ¬ P x) → filter P l = [].
Proof.
  induction l as [|x l IH]; intros Hall; [done|].
  rewrite filter_cons_False; [|apply Hall; left].
  apply IH. intros y Hy. apply Hall. by right.
Qed.

(** ** Seeding *)

Lemma seed_products_from_empty (cc : option (container cart_doc))
    (oc : option (container order)) :
  seed_products (World (Some (Container [] None)) cc oc)
  = (World (Some (Container seed_catalog None)) cc oc, Returned tt).
Proof. reflexivity. Qed.

(** ** GET /api/v1/products/{product_id} *)

(** C7, as stated, fails: a configured store that answers the query with
    a Cosmos HTTP error (it is not reachable, or refuses the request)
    gives 404 Not Found, not 503. *)
Lemma get_product_unreachable_store_404 :
  let w :=
    World
      (Some (Container seed_catalog
               (Some (CosmosHttpResponseError "Service Unavailable"))))
      None None in
  get_product "1" w = (w, Raised (HTTPException 404 "Product not found"))
  ∧ get_product "1" w
    ≠ (w, Raised (HTTPException 503 "Database not available")).
Proof. split; [reflexivity | discriminate]. Qed.

(** C7 (amended): [get_product] answers 503 when the product store is not
    configured.  With a configured store it answers 404 when the query
    is refused with a Cosmos HTTP error and when a responsive store has
    no product of that id; a responsive store with unique ids returns the
    product of the requested id as stored, and so does the catalog that
    [seed_products] has filled from empty, for each seed product. *)
Theorem get_product_status (product_id : string) (w : world)
    (pc : container product) :
  (products_container w = None →
     get_product product_id w
     = (w, Raised (HTTPException 503 "Database not available")))
  ∧ (products_container w = Some pc →
     (∀ e, fault pc = Some e → is_CosmosHttpResponseError e = true →
        get_product product_id w
        = (w, Raised (HTTPException 404 "Product not found")))
     ∧ (fault pc = None → (∀ p, p ∈ items pc → p_id p ≠ product_id) →
        get_product product_id w
        = (w, Raised (HTTPException 404 "Product not found")))
     ∧ (fault pc = None → NoDup (p_id <$> items pc) →
        ∀ p, p ∈ items pc → p_id p = product_id →
        get_product product_id w = (w, Returned p)))
  ∧ (∀ cc oc p,
       p ∈ seed_catalog →
       ∃ w',
         seed_products (World (Some (Container [] None)) cc oc)
         = (w', Returned tt)
         ∧ get_product (p_id p) w' = (w', Returned p)).
Proof.
  split; [|split].
  - intros Hn. rewrite get_product_run, Hn. done.
  - intros Hc. rewrite get_product_run, Hc. repeat split.
    + intros e -> ->. done.
    + intros -> Habs. rewrite filter_nil_of_absent; [done|].
      intros p Hp. by apply Habs.
    + intros -> Hnd p Hp <-.
      destruct (filter_first_of_unique p_id (items pc) p Hnd Hp) as [r ->].
      done.
  - intros cc oc p Hp. eexists. split.
    + apply seed_products_from_empty.
    + rewrite get_product_run. simpl.
      assert (Hnd : NoDup (p_id <$> seed_catalog)).
      { compute_done. }
      destruct (filter_first_of_unique p_id seed_catalog p Hnd Hp) as [r ->].
      done.
Qed.

Lemma get_product_status_witness :
  get_product "3"
    (World (Some (Container seed_catalog None)) None None)
  = (World (Some (Container seed_catalog None)) None None,
     Returned (Product "3" "Running Shoes X1"
                 "Lightweight breathable running shoes"
                 (Some "Sports") 8999 100 (Some "👟"))).
Proof.
  apply (get_product_status "3"
           (World (Some (Container seed_catalog None)) None None)
           (Container seed_catalog None)).
  - reflexivity.
  - reflexivity.
  - compute_done.
  - compute_done.
  - reflexivity.
Defined.

(** ** Read paths on a failing store *)

(** X5: the catalog and order reads answer the empty list when the query
    raises, whatever the exception. *)
Lemma reads_degrade_to_empty (w : world) :
  (∀ pc e category, products_container w = Some pc → fault pc = Some e →
     list_products category w = (w, Returned []))
  ∧ (∀ pc e q, products_container w = Some pc → fault pc = Some e →
     search_products q w = (w, Returned []))
  ∧ (∀ pc e, products_container w = Some pc → fault pc = Some e →
     get_categories w = (w, Returned []))
  ∧ (∀ oc e u, orders_container w = Some oc → fault oc = Some e →
     get_orders u w = (w, Returned [])).
Proof.
  destruct w as [pc cc oc]. repeat split; simpl.
  - intros c e category -> Hf. unfold list_products. unfold_monad. simpl.
    unfold query_items, guarded.
    destruct (truthy category); simpl; by rewrite Hf.
  - intros c e q -> Hf. unfold search_products. unfold_monad. simpl.
    unfold query_items, guarded. by rewrite Hf.
  - intros c e -> Hf. unfold get_categories. unfold_monad. simpl.
    unfold query_distinct_category, guarded. by rewrite Hf.
  - intros c e u -> Hf. unfold get_orders. unfold_monad. simpl.
    unfold query_items, guarded. by rewrite Hf.
Qed.

(** C2: [get_cart] is the read path that does not degrade: when the cart
    query raises, the handler answers the error object [{"error": str(e)}]
    where the other reads answer [[]]. *)
Theorem get_cart_answers_store_error (u : jval) (w : world)
    (cc : container cart_doc) (pc : container product) (e : exn) :
  cart_container w = Some cc → products_container w = Some pc →
  fault cc = Some e →
  get_cart u w = (w, Returned (ErrorObj (str e))).
Proof.
  destruct w as [pc' cc' oc]. simpl. intros -> -> Hf.
  unfold get_cart. unfold_monad. simpl.
  by rewrite query_items_faulty with (e := e).
Qed.

Lemma get_cart_answers_store_error_witness :
  let w :=
    World (Some (Container seed_catalog None))
      (Some (Container [] (Some (ServiceRequestError "connection refused"))))
      (Some (Container [] None)) in
  get_cart (JStr "demo") w = (w, Returned (ErrorObj "connection refused")).
Proof.
  intros w.
  apply (get_cart_answers_store_error (JStr "demo") w
           (Container [] (Some (ServiceRequestError "connection refused")))
           (Container seed_catalog None)
           (ServiceRequestError "connection refused"));
    reflexivity.
Defined.

(** ** Writes on a container *)

Section documents.
Context {A : Type} `{Document A}.

Lemma has_key_true (k : option string * string) (l : list A) :
  has_key k l = true ↔ k ∈ doc_key <$> l.
Proof.
  unfold has_key. split.
  - intros Hb. by apply bool_decide_eq_true in Hb.
  - intros Hin. by apply bool_decide_eq_true.
Qed.

Lemma has_key_false (k : option string * string) (l : list A) :
  has_key k l = false ↔ k ∉ doc_key <$> l.
Proof.
  unfold has_key. split.
  - intros Hb. by apply bool_decide_eq_false in Hb.
  - intros Hin. by apply bool_decide_eq_false.
Qed.

Lemma has_key_of_elem (d : A) (l : list A) :
  d ∈ l → has_key (doc_key d) l = true.
Proof. intros Hd. apply has_key_true. by apply list_elem_of_fmap_2. Qed.

Lemma remove_doc_middle (k : option string * string) (pre l : list A)
    (d : A) :
  k ∉ doc_key <$> pre → doc_key d = k →
  remove_doc k (pre ++ d :: l) = pre ++ l.
Proof.
  intros Hpre Hd. induction pre as [|x pre IH]; simpl.
  - by rewrite decide_True.
  - rewrite fmap_cons in Hpre. apply not_elem_of_cons in Hpre as [Hx Hpre].
    rewrite decide_False by done. f_equal. by apply IH.
Qed.

Lemma replace_doc_middle (d' d : A) (pre l : list A) :
  doc_key d' ∉ doc_key <$> pre → doc_key d = doc_key d' →
  replace_doc d' (pre ++ d :: l) = pre ++ d' :: l.
Proof.
  intros Hpre Hd. induction pre as [|x pre IH]; simpl.
  - by rewrite decide_True.
  - rewrite fmap_cons in Hpre. apply not_elem_of_cons in Hpre as [Hx Hpre].
    rewrite decide_False by done. f_equal. by apply IH.
Qed.

Lemma replace_doc_elem (d' : A) (l : list A) :
  doc_key d' ∈ doc_key <$> l → d' ∈ replace_doc d' l.
Proof.
  induction l as [|x l IH]; simpl; intros Hin.
  - by apply elem_of_nil in Hin.
  - destruct (decide (doc_key x = doc_key d')) as [Heq|Hne].
    + by left.
    + right. apply IH. apply elem_of_cons in Hin as [Hin|Hin]; [|done].
      by destruct Hne.
Qed.
End documents.

Lemma filter_split_first {A : Type} (P : A → Prop) `{∀ x, Decision (P x)}
    (l : list A) (e : A) (rest : list A) :
  filter P l = e :: rest →
  ∃ l1 l2, l = l1 ++ e :: l2 ∧ filter P l1 = [] ∧ filter P l2 = rest ∧ P e.
Proof.
  induction l as [|x l IH]; [done|].
  destruct (decide (P x)) as [Hx|Hx].
  - rewrite filter_cons_True by done. intros [= -> <-].
    by exists [], l.
  - rewrite filter_cons_False by done. intros Hf.
    destruct (IH Hf) as (l1 & l2 & -> & H1 & H2 & He).
    exists (x :: l1), l2. repeat split; try done.
    by rewrite filter_cons_False.
Qed.

(** ** The cart store *)

(** The deleting loop of [remove_from_cart] and [create_order]: run on
    the documents a query selected, it leaves the others. *)
Lemma delete_selected (P : cart_doc → Prop) `{∀ x, Decision (P x)}
    (pc : option (container product)) (oc : option (container order))
    (l pre : list cart_doc) :
  (∀ d, P d → c_user_id d = DEFAULT_USER) →
  unique_keys (pre ++ l) →
  for_each (filter P l)
    (λ item, call cart (delete_item (c_id item) DEFAULT_USER))
    (World pc (Some (Container (pre ++ l) None)) oc)
  = (World pc (Some (Container (pre ++ filter (λ d, ¬ P d) l) None)) oc,
     Returned tt).
Proof.
  intros HP. revert pre. induction l as [|d l IH]; intros pre Hnd.
  - reflexivity.
  - destruct (decide (P d)) as [Hd|Hd].
    + rewrite filter_cons_True by done.
      rewrite (filter_cons_False (λ d, ¬ P d)) by tauto.
      cbn [for_each]. unfold_monad. cbn [proxy rebind cart cart_container].
      unfold delete_item, guarded. cbn [fault items].
      assert (Hk : doc_key d = (Some DEFAULT_USER, c_id d)).
      { unfold doc_key. simpl. by rewrite (HP d Hd). }
      rewrite <- Hk.
      rewrite has_key_of_elem by (apply elem_of_app; right; left).
      unfold unique_keys in Hnd. rewrite fmap_app, fmap_cons in Hnd.
      apply NoDup_app in Hnd as (Hpre & Hdisj & Hl).
      apply NoDup_cons in Hl as [Hdl Hl].
      rewrite remove_doc_middle; [|intros Hin; apply (Hdisj _ Hin); left|done].
      cbn [products_container cart_container orders_container].
      apply IH. unfold unique_keys. rewrite fmap_app.
      apply NoDup_app. repeat split; [done| |done].
      intros k Hk1 Hk2. apply (Hdisj k Hk1). by right.
    + rewrite filter_cons_False by done.
      rewrite (filter_cons_True (λ d, ¬ P d)) by done.
      rewrite (cons_middle d pre l), (cons_middle d pre), !app_assoc.
      apply IH. by rewrite <- app_assoc.
Qed.

Lemma remove_from_cart_run (product_id : string) (u : jval)
    (pc : option (container product)) (oc : option (container order))
    (l : list cart_doc) :
  unique_keys l →
  remove_from_cart product_id u (World pc (Some (Container l None)) oc)
  = (World pc
       (Some (Container
          (filter (λ c, ¬ (c_user_id c = DEFAULT_USER
                           ∧ c_product_id c = product_id)) l) None)) oc,
     Returned (Body (Message "Removed from Cosmos DB"))).
Proof.
  intros Hnd. unfold remove_from_cart.
  pose proof (delete_selected
    (λ c, c_user_id c = DEFAULT_USER ∧ c_product_id c = product_id)
    pc oc l [] (λ d Hd, proj1 Hd) Hnd) as Hdel.
  unfold_monad. unfold query_items, guarded. simpl in *.
  by rewrite Hdel.
Qed.

Lemma create_order_run (uuid4 : string) (utcnow : datetime) (u : jval)
    (pc : option (container product)) (l : list cart_doc)
    (lo : list order) :
  unique_keys l →
  has_key (Some DEFAULT_USER, uuid4) lo = false →
  create_order uuid4 utcnow u
    (World pc (Some (Container l None)) (Some (Container lo None)))
  = let o :=
      Order uuid4 DEFAULT_USER
        ((λ i, OrderLine (c_product_id i) (c_quantity i))
           <$> filter (λ c, c_user_id c = DEFAULT_USER) l)
        "confirmed" utcnow in
    (World pc
       (Some (Container (filter (λ c, ¬ c_user_id c = DEFAULT_USER) l) None))
       (Some (Container (lo ++ [o]) None)),
     Returned (Body o)).
Proof.
  intros Hnd Hfresh. unfold create_order.
  pose proof (delete_selected (λ c, c_user_id c = DEFAULT_USER) pc
    (Some (Container (lo ++ [
       Order uuid4 DEFAULT_USER
         ((λ i, OrderLine (c_product_id i) (c_quantity i))
            <$> filter (λ c, c_user_id c = DEFAULT_USER) l)
         "confirmed" utcnow]) None))
    l [] (λ d Hd, Hd) Hnd) as Hdel.
  unfold_monad. unfold query_items, create_item, guarded. simpl in *.
  unfold doc_key. simpl. rewrite Hfresh. simpl.
  by rewrite Hdel.
Qed.

Lemma add_to_cart_run (uuid4 : string) (item : CartItem) (u : jval)
    (pc : option (container product)) (oc : option (container order))
    (l : list cart_doc) :
  add_to_cart uuid4 item u (World pc (Some (Container l None)) oc)
  = match
      filter (λ c, c_user_id c = DEFAULT_USER
                   ∧ c_product_id c = product_id item) l
    with
    | cart_item :: _ =>
        (World pc
           (Some (Container
              (replace_doc (set_quantity cart_item (quantity item)) l) None))
           oc,
         Returned (Body (Message "Saved to Cosmos DB")))
    | [] =>
        if has_key (Some DEFAULT_USER, uuid4) l then
          (World pc (Some (Container l None)) oc,
           Returned (ErrorObj "Conflict"))
        else
          (World pc
             (Some (Container
                (l ++ [CartDoc uuid4 DEFAULT_USER (product_id item)
                         (quantity item)]) None))
             oc,
           Returned (Body (Message "Saved to Cosmos DB")))
    end.
Proof.
  unfold add_to_cart. unfold_monad.
  unfold query_items, create_item, upsert_item, guarded. simpl.
  destruct (filter _ l) as [|e rest] eqn:Hf; simpl.
  - unfold doc_key. simpl. by destruct (has_key _ l).
  - assert (He : e ∈ l).
    { eapply list_elem_of_filter. rewrite Hf. by left. }
    change (doc_key (set_quantity e (quantity item))) with (doc_key e).
    by rewrite has_key_of_elem.
Qed.

(** On a cart without lines of the shared user [get_cart] answers the
    empty list, whatever the state of the catalog. *)
Lemma get_cart_empty (u : jval) (pc : option (container product))
    (oc : option (container order)) (l : list cart_doc) :
  filter (λ c, c_user_id c = DEFAULT_USER) l = [] →
  (get_cart u (World pc (Some (Container l None)) oc)).2
  = Returned (Body []).
Proof.
  intros Hf. unfold get_cart. unfold_monad.
  unfold query_items, guarded. simpl.
  destruct pc as [pc|]; simpl; [|done].
  by rewrite Hf.
Qed.

(** ** The store invariants are kept

    Unique keys and one line per (user, product) hold of the empty cart
    and are kept by every handler that writes to the cart, so they hold
    in every state the handlers reach one request after the other. *)

Lemma cart_invariants_filter (P : cart_doc → Prop) `{∀ x, Decision (P x)}
    (l : list cart_doc) :
  unique_keys l ∧ one_line_per_product l →
  unique_keys (filter P l) ∧ one_line_per_product (filter P l).
Proof.
  unfold unique_keys, one_line_per_product. intros [Hk Hp].
  split.
  - apply (sublist_NoDup _ (doc_key <$> l)); [done|].
    apply fmap_sublist, sublist_filter.
  - apply (sublist_NoDup _ (user_product <$> l)); [done|].
    apply fmap_sublist, sublist_filter.
Qed.

Lemma cart_invariants_add_to_cart (uuid4 : string) (item : CartItem)
    (u : jval) (pc : option (container product))
    (oc : option (container order)) (l : list cart_doc) :
  unique_keys l ∧ one_line_per_product l →
  ∃ l',
    (add_to_cart uuid4 item u (World pc (Some (Container l None)) oc)).1
    = World pc (Some (Container l' None)) oc
    ∧ unique_keys l' ∧ one_line_per_product l'.
Proof.
  intros [Hk Hp]. rewrite add_to_cart_run.
  destruct (filter _ l) as [|e rest] eqn:Hf.
  - destruct (has_key _ l) eqn:Hfresh; [by exists l|].
    eexists. split; [done|].
    unfold unique_keys, one_line_per_product. rewrite !fmap_app.
    split; apply NoDup_app; (split; [done|]);
      (split; [|apply NoDup_singleton]); intros k Hin Hk';
      apply list_elem_of_singleton in Hk'; subst k.
    + by apply has_key_false in Hfresh.
    + apply list_elem_of_fmap in Hin as (x & Hx & Hin).
      assert (Hxf : x ∈ filter (λ c, c_user_id c = DEFAULT_USER
                                     ∧ c_product_id c = product_id item) l).
      { apply list_elem_of_filter. split; [|done].
        unfold user_product in Hx. simpl in Hx. by injection Hx as -> ->. }
      rewrite Hf in Hxf. by apply elem_of_nil in Hxf.
  - destruct (filter_split_first _ l e rest Hf)
      as (a & b & -> & Ha & Hb & [Hu Hpid]).
    assert (Hka : doc_key e ∉ doc_key <$> a).
    { unfold unique_keys in Hk. rewrite fmap_app, fmap_cons in Hk.
      apply NoDup_app in Hk as (_ & Hdisj & _).
      intros Hin. apply (Hdisj _ Hin). by left. }
    rewrite replace_doc_middle by done.
    eexists. split; [done|].
    unfold unique_keys, one_line_per_product in *.
    by rewrite !fmap_app, !fmap_cons in *.
Qed.

Lemma cart_invariants_remove_from_cart (pid : string) (u : jval)
    (pc : option (container product)) (oc : option (container order))
    (l : list cart_doc) :
  unique_keys l ∧ one_line_per_product l →
  ∃ l',
    (remove_from_cart pid u (World pc (Some (Container l None)) oc)).1
    = World pc (Some (Container l' None)) oc
    ∧ unique_keys l' ∧ one_line_per_product l'.
Proof.
  intros Hinv. rewrite remove_from_cart_run by apply Hinv.
  eexists. split; [done|]. by apply cart_invariants_filter.
Qed.

Lemma cart_invariants_empty :
  unique_keys ([] : list cart_doc) ∧ one_line_per_product [].
Proof. split; apply NoDup_nil_2. Qed.

Lemma cart_invariants_create_order (uuid4 : string) (utcnow : datetime)
    (u : jval) (pc : option (container product)) (l : list cart_doc)
    (lo : list order) :
  unique_keys l ∧ one_line_per_product l →
  ∃ l' lo',
    (create_order uuid4 utcnow u
       (World pc (Some (Container l None)) (Some (Container lo None)))).1
    = World pc (Some (Container l' None)) (Some (Container lo' None))
    ∧ unique_keys l' ∧ one_line_per_product l'.
Proof.
  intros Hinv.
  destruct (has_key (Some DEFAULT_USER, uuid4) lo) eqn:Hfresh.
  - exists l, lo. split; [|done].
    unfold create_order. unfold_monad.
    unfold query_items, create_item, guarded. simpl.
    unfold doc_key. simpl. by rewrite Hfresh.
  - rewrite create_order_run by (done || apply Hinv).
    eexists _, _. split; [done|]. by apply cart_invariants_filter.
Qed.

(** ** DELETE /api/v1/cart/items/{product_id} *)

(** C8: on a configured, responsive cart store [remove_from_cart] answers
    its confirmation message and leaves exactly the entries that do not
    match (shared user, product id); when no entry matches, the store is
    left as it was. *)
Theorem remove_from_cart_deletes_matching (product_id : string) (u : jval)
    (w : world) (pc : option (container product))
    (oc : option (container order)) (cc : container cart_doc) :
  w = World pc (Some cc) oc → fault cc = None →
  (unique_keys (items cc) →
     remove_from_cart product_id u w
     = (World pc
          (Some (Container
             (filter (λ c, ¬ (c_user_id c = DEFAULT_USER
                              ∧ c_product_id c = product_id)) (items cc))
             None)) oc,
        Returned (Body (Message "Removed from Cosmos DB"))))
  ∧ (filter (λ c, c_user_id c = DEFAULT_USER
                  ∧ c_product_id c = product_id) (items cc) = [] →
     remove_from_cart product_id u w
     = (w, Returned (Body (Message "Removed from Cosmos DB")))).
Proof.
  intros -> Hf. destruct cc as [l f]. simpl in *. subst f. split.
  - apply remove_from_cart_run.
  - intros Hnone. unfold remove_from_cart. unfold_monad.
    unfold query_items, guarded. simpl. by rewrite Hnone.
Qed.

Lemma remove_from_cart_deletes_matching_witness :
  let keep := CartDoc "c-2" "demo_user" "7" 1 in
  let w0 := World None
    (Some (Container [CartDoc "c-1" "demo_user" "3" 2; keep] None)) None in
  let w1 := World None (Some (Container [keep] None)) None in
  remove_from_cart "3" (JStr "demo") w0
  = (w1, Returned (Body (Message "Removed from Cosmos DB")))
  ∧ remove_from_cart "3" (JStr "demo") w1
    = (w1, Returned (Body (Message "Removed from Cosmos DB"))).
Proof.
  intros keep w0 w1. split.
  - apply (remove_from_cart_deletes_matching "3" (JStr "demo") w0 None None
             (Container [CartDoc "c-1" "demo_user" "3" 2; keep] None));
      [reflexivity | reflexivity | unfold unique_keys; compute_done].
  - apply (remove_from_cart_deletes_matching "3" (JStr "demo") w1 None None
             (Container [keep] None)); reflexivity.
Defined.

(** ** POST /api/v1/orders *)

(** C1, as stated, fails: with an empty cart the handler does not
    reject; it persists an order without line items and returns it. *)
Lemma create_order_empty_cart_not_rejected :
  let w := World None (Some (Container [] None)) (Some (Container [] None)) in
  let o := Order "0b5c" "demo_user" [] "confirmed" 1700000000000000 in
  create_order "0b5c" 1700000000000000 (JStr "demo") w
  = (World None (Some (Container [] None)) (Some (Container [o] None)),
     Returned (Body o))
  ∧ ∀ error,
      (create_order "0b5c" 1700000000000000 (JStr "demo") w).2
      ≠ Returned (ErrorObj error).
Proof. split; [reflexivity | discriminate]. Qed.

(** C1 (amended): for a cart without entries of the shared user, on
    configured and responsive stores and with an unused order id,
    [create_order] is not rejected: it persists and returns a confirmed
    order without line items and leaves the cart as it was. *)
Theorem create_order_empty_cart (uuid4 : string) (utcnow : datetime)
    (u : jval) (pc : option (container product)) (l : list cart_doc)
    (lo : list order) :
  filter (λ c, c_user_id c = DEFAULT_USER) l = [] →
  has_key (Some DEFAULT_USER, uuid4) lo = false →
  create_order uuid4 utcnow u
    (World pc (Some (Container l None)) (Some (Container lo None)))
  = (World pc (Some (Container l None))
       (Some (Container
          (lo ++ [Order uuid4 DEFAULT_USER [] "confirmed" utcnow]) None)),
     Returned (Body (Order uuid4 DEFAULT_USER [] "confirmed" utcnow))).
Proof.
  intros Hempty Hfresh. unfold create_order. unfold_monad.
  unfold query_items, create_item, guarded. simpl.
  rewrite Hempty. unfold doc_key. simpl. by rewrite Hfresh.
Qed.

Lemma create_order_empty_cart_witness :
  create_order "0b5c" 1700000000000000 (JStr "demo")
    (World None (Some (Container [] None)) (Some (Container [] None)))
  = (World None (Some (Container [] None))
       (Some (Container
          [Order "0b5c" "demo_user" [] "confirmed" 1700000000000000] None)),
     Returned (Body
       (Order "0b5c" "demo_user" [] "confirmed" 1700000000000000))).
Proof.
  apply (create_order_empty_cart "0b5c" 1700000000000000 (JStr "demo")
           None [] []); reflexivity.
Defined.

(** C5: on configured, responsive stores whose cart keys are unique, and
    with an order id not yet used, [create_order] with N cart entries of
    the shared user returns an order of exactly N line items, one per
    entry in order, each the entry's product id and quantity; the order
    carries the new id, the shared user, the status "confirmed" and the
    current UTC time; it is appended to the orders, every consumed
    entry is gone from the cart, and [get_cart] then answers the empty
    list. *)
Theorem create_order_consumes_cart (uuid4 : string) (utcnow : datetime)
    (u u' : jval) (w : world) (pc : option (container product))
    (cc : container cart_doc) (oc : container order) :
  w = World pc (Some cc) (Some oc) →
  fault cc = None → fault oc = None →
  unique_keys (items cc) →
  has_key (Some DEFAULT_USER, uuid4) (items oc) = false →
  filter (λ c, c_user_id c = DEFAULT_USER) (items cc) ≠ [] →
  ∃ o w',
    create_order uuid4 utcnow u w = (w', Returned (Body o))
    ∧ length (o_items o)
      = length (filter (λ c, c_user_id c = DEFAULT_USER) (items cc))
    ∧ o_items o
      = (λ i, OrderLine (c_product_id i) (c_quantity i))
          <$> filter (λ c, c_user_id c = DEFAULT_USER) (items cc)
    ∧ o_id o = uuid4
    ∧ (∀ o', o' ∈ items oc → doc_key o' ≠ doc_key o)
    ∧ o_created_at o = utcnow
    ∧ o_status o = "confirmed"
    ∧ orders_container w' = Some (Container (items oc ++ [o]) None)
    ∧ cart_container w'
      = Some (Container
          (filter (λ c, ¬ c_user_id c = DEFAULT_USER) (items cc)) None)
    ∧ (get_cart u' w').2 = Returned (Body []).
Proof.
  intros -> Hfc Hfo Hnd Hfresh _.
  destruct cc as [l fc], oc as [lo fo]. simpl in *. subst fc fo.
  eexists _, _. split; [by apply create_order_run|]. simpl.
  repeat split.
  - by rewrite length_fmap.
  - intros o' Ho' Hk. apply has_key_false in Hfresh. apply Hfresh.
    apply list_elem_of_fmap. exists o'. split; [exact (eq_sym Hk) | done].
  - apply get_cart_empty. apply filter_nil_of_absent.
    intros x Hx. apply list_elem_of_filter in Hx. tauto.
Qed.

Lemma create_order_consumes_cart_witness :
  ∃ o w',
    create_order "0b5c" 1700000000000000 (JStr "demo")
      (World (Some (Container seed_catalog None))
         (Some (Container [CartDoc "c-1" "demo_user" "3" 2;
                           CartDoc "c-2" "demo_user" "7" 1] None))
         (Some (Container [] None)))
    = (w', Returned (Body o))
    ∧ length (o_items o) = 2%nat
    ∧ o_items o = [OrderLine "3" 2; OrderLine "7" 1]
    ∧ cart_container w' = Some (Container [] None)
    ∧ (get_cart (JStr "demo") w').2 = Returned (Body []).
Proof.
  destruct (create_order_consumes_cart "0b5c" 1700000000000000
              (JStr "demo") (JStr "demo")
              (World (Some (Container seed_catalog None))
                 (Some (Container [CartDoc "c-1" "demo_user" "3" 2;
                                   CartDoc "c-2" "demo_user" "7" 1] None))
                 (Some (Container [] None)))
              (Some (Container seed_catalog None))
              (Container [CartDoc "c-1" "demo_user" "3" 2;
                          CartDoc "c-2" "demo_user" "7" 1] None)
              (Container [] None)
              eq_refl eq_refl eq_refl
              ltac:(unfold unique_keys; compute_done)
              eq_refl
              ltac:(compute_done))
    as (o & w' & Hrun & Hlen & Hitems & _ & _ & _ & _ & _ & Hcart & Hget).
  exists o, w'. repeat split; assumption.
Defined.

(** ** POST /api/v1/cart/items *)

(** The second branch of [add_to_cart]: the first entry of the pair is
    [e], found after the unrelated documents [a]. *)
Lemma add_to_cart_update (uuid4 pid : string) (q : Z) (u : jval)
    (pc : option (container product)) (oc : option (container order))
    (a b : list cart_doc) (e : cart_doc) :
  c_user_id e = DEFAULT_USER → c_product_id e = pid →
  filter (λ c, c_user_id c = DEFAULT_USER ∧ c_product_id c = pid) a = [] →
  doc_key e ∉ doc_key <$> a →
  add_to_cart uuid4 (MkCartItem pid q) u
    (World pc (Some (Container (a ++ e :: b) None)) oc)
  = (World pc (Some (Container (a ++ set_quantity e q :: b) None)) oc,
     Returned (Body (Message "Saved to Cosmos DB"))).
Proof.
  intros Hu Hp Ha Hk. rewrite add_to_cart_run. cbn [product_id quantity].
  rewrite filter_app, Ha, filter_cons_True by done. cbn [app].
  by rewrite replace_doc_middle.
Qed.

(** C3, as stated, fails: a quantity of zero and a negative quantity are
    accepted and stored. *)
Lemma add_to_cart_accepts_nonpositive_quantity :
  let w := World None (Some (Container [] None)) None in
  add_to_cart "c-1" (MkCartItem "3" 0) (JStr "demo") w
  = (World None
       (Some (Container [CartDoc "c-1" "demo_user" "3" 0] None)) None,
     Returned (Body (Message "Saved to Cosmos DB")))
  ∧ add_to_cart "c-1" (MkCartItem "3" (-2)) (JStr "demo") w
    = (World None
         (Some (Container [CartDoc "c-1" "demo_user" "3" (-2)] None)) None,
       Returned (Body (Message "Saved to Cosmos DB"))).
Proof. split; reflexivity. Qed.

(** C3 (amended): [add_to_cart] takes any integer quantity.  On a
    configured, responsive cart store (with an unused id when it has to
    create the entry) it answers its confirmation message and the cart
    then holds an entry of the shared user for the product with exactly
    the quantity given, be it positive, zero or negative. *)
Theorem add_to_cart_stores_any_quantity (uuid4 pid : string) (q : Z)
    (u : jval) (pc : option (container product))
    (oc : option (container order)) (l : list cart_doc) :
  (filter (λ c, c_user_id c = DEFAULT_USER ∧ c_product_id c = pid) l = [] →
   has_key (Some DEFAULT_USER, uuid4) l = false) →
  ∃ l' e,
    add_to_cart uuid4 (MkCartItem pid q) u
      (World pc (Some (Container l None)) oc)
    = (World pc (Some (Container l' None)) oc,
       Returned (Body (Message "Saved to Cosmos DB")))
    ∧ e ∈ l'
    ∧ c_user_id e = DEFAULT_USER ∧ c_product_id e = pid ∧ c_quantity e = q.
Proof.
  intros Hfresh. rewrite add_to_cart_run. cbn [product_id quantity].
  destruct (filter _ l) as [|e0 rest] eqn:Hf.
  - rewrite Hfresh by done.
    eexists _, (CartDoc uuid4 DEFAULT_USER pid q). split; [done|].
    split; [|done]. apply elem_of_app. right. by left.
  - assert (He : e0 ∈ filter (λ c, c_user_id c = DEFAULT_USER
                                   ∧ c_product_id c = pid) l).
    { rewrite Hf. by left. }
    apply list_elem_of_filter in He as [[Hu Hp] He].
    eexists _, (set_quantity e0 q). split; [done|].
    split; [|done].
    apply replace_doc_elem.
    change (doc_key (set_quantity e0 q)) with (doc_key e0).
    by apply list_elem_of_fmap_2.
Qed.

Lemma add_to_cart_stores_any_quantity_witness :
  ∃ l' e,
    add_to_cart "c-9" (MkCartItem "3" (-2)) (JStr "demo")
      (World None
         (Some (Container [CartDoc "c-1" "demo_user" "7" 4] None)) None)
    = (World None (Some (Container l' None)) None,
       Returned (Body (Message "Saved to Cosmos DB")))
    ∧ e ∈ l'
    ∧ c_user_id e = DEFAULT_USER ∧ c_product_id e = "3"
    ∧ c_quantity e = -2.
Proof.
  apply (add_to_cart_stores_any_quantity "c-9" "3" (-2) (JStr "demo")
           None None [CartDoc "c-1" "demo_user" "7" 4]).
  intros _. reflexivity.
Defined.

Lemma one_line_rest_nil (pid : string) (a b : list cart_doc) (e : cart_doc) :
  one_line_per_product (a ++ e :: b) →
  c_user_id e = DEFAULT_USER → c_product_id e = pid →
  filter (λ c, c_user_id c = DEFAULT_USER ∧ c_product_id c = pid) b = [].
Proof.
  intros Hone Hu Hp. apply filter_nil_of_absent. intros x Hx [Hxu Hxp].
  unfold one_line_per_product in Hone.
  rewrite fmap_app, fmap_cons in Hone.
  apply NoDup_app in Hone as (_ & _ & Hone).
  apply NoDup_cons in Hone as [Hne _]. apply Hne.
  replace (user_product e) with (user_product x).
  - by apply list_elem_of_fmap_2.
  - unfold user_product. congruence.
Qed.

(** C4: on a configured, responsive cart store in which keys are unique
    and no (user, product) pair has two entries, two calls of
    [add_to_cart] for the same product with quantities q1 then q2 both
    succeed and leave exactly one entry of the shared user for the
    product, of quantity q2; the other entries are as before.  When there
    was no entry (and the generated id is unused) the first call appends
    one new entry, and the second overwrites its quantity. *)
Theorem add_to_cart_twice_overwrites (uuid1 uuid2 pid : string) (q1 q2 : Z)
    (u1 u2 : jval) (pc : option (container product))
    (oc : option (container order)) (l : list cart_doc) :
  unique_keys l → one_line_per_product l →
  (filter (λ c, c_user_id c = DEFAULT_USER ∧ c_product_id c = pid) l = [] →
   has_key (Some DEFAULT_USER, uuid1) l = false) →
  ∃ l1 l2 e,
    add_to_cart uuid1 (MkCartItem pid q1) u1
      (World pc (Some (Container l None)) oc)
    = (World pc (Some (Container l1 None)) oc,
       Returned (Body (Message "Saved to Cosmos DB")))
    ∧ add_to_cart uuid2 (MkCartItem pid q2) u2
        (World pc (Some (Container l1 None)) oc)
      = (World pc (Some (Container l2 None)) oc,
         Returned (Body (Message "Saved to Cosmos DB")))
    ∧ filter (λ c, c_user_id c = DEFAULT_USER ∧ c_product_id c = pid) l2
      = [e]
    ∧ c_quantity e = q2
    ∧ filter (λ c, ¬ (c_user_id c = DEFAULT_USER ∧ c_product_id c = pid)) l2
      = filter (λ c, ¬ (c_user_id c = DEFAULT_USER ∧ c_product_id c = pid)) l
    ∧ (filter (λ c, c_user_id c = DEFAULT_USER ∧ c_product_id c = pid) l = []
       → l1 = l ++ [CartDoc uuid1 DEFAULT_USER pid q1]
         ∧ l2 = l ++ [CartDoc uuid1 DEFAULT_USER pid q2]).
Proof.
  intros Hkeys Hone Hfresh.
  destruct (filter (λ c, c_user_id c = DEFAULT_USER ∧ c_product_id c = pid) l)
    as [|e0 rest] eqn:Hf.
  - specialize (Hfresh eq_refl).
    exists (l ++ [CartDoc uuid1 DEFAULT_USER pid q1]),
           (l ++ [CartDoc uuid1 DEFAULT_USER pid q2]),
           (CartDoc uuid1 DEFAULT_USER pid q2).
    split; [|split; [|split; [|split; [|split]]]].
    + rewrite add_to_cart_run. cbn [product_id quantity].
      by rewrite Hf, Hfresh.
    + apply (add_to_cart_update uuid2 pid q2 u2 pc oc l []
               (CartDoc uuid1 DEFAULT_USER pid q1)); try done.
      by apply has_key_false in Hfresh.
    + by rewrite filter_app, Hf, filter_cons_True.
    + done.
    + rewrite filter_app, filter_cons_False, filter_nil, app_nil_r; [done|].
      simpl. tauto.
    + done.
  - destruct (filter_split_first _ l e0 rest Hf)
      as (a & b & -> & Ha & Hb & [Hu Hp]).
    pose proof (one_line_rest_nil pid a b e0 Hone Hu Hp) as Hbnil.
    assert (Hk : doc_key e0 ∉ doc_key <$> a).
    { unfold unique_keys in Hkeys. rewrite fmap_app, fmap_cons in Hkeys.
      apply NoDup_app in Hkeys as (_ & Hdisj & _).
      intros Hin. apply (Hdisj _ Hin). by left. }
    exists (a ++ set_quantity e0 q1 :: b),
           (a ++ set_quantity (set_quantity e0 q1) q2 :: b),
           (set_quantity (set_quantity e0 q1) q2).
    split; [|split; [|split; [|split; [|split]]]].
    + by apply add_to_cart_update.
    + by apply add_to_cart_update.
    + by rewrite filter_app, Ha, filter_cons_True, Hbnil.
    + done.
    + rewrite !filter_app, !filter_cons_False; [done| |]; simpl; tauto.
    + discriminate.
Qed.

Lemma add_to_cart_twice_overwrites_witness :
  ∃ l1 l2 e,
    add_to_cart "c-1" (MkCartItem "3" 2) (JStr "demo")
      (World None (Some (Container [] None)) None)
    = (World None (Some (Container l1 None)) None,
       Returned (Body (Message "Saved to Cosmos DB")))
    ∧ add_to_cart "c-2" (MkCartItem "3" 5) (JStr "demo")
        (World None (Some (Container l1 None)) None)
      = (World None (Some (Container l2 None)) None,
         Returned (Body (Message "Saved to Cosmos DB")))
    ∧ filter (λ c, c_user_id c = DEFAULT_USER ∧ c_product_id c = "3") l2
      = [e]
    ∧ c_quantity e = 5.
Proof.
  destruct (add_to_cart_twice_overwrites "c-1" "c-2" "3" 2 5
              (JStr "demo") (JStr "demo") None None []
              ltac:(unfold unique_keys; compute_done)
              ltac:(unfold one_line_per_product; compute_done)
              (λ _, eq_refl))
    as (l1 & l2 & e & H1 & H2 & H3 & H4 & _).
  exists l1, l2, e. repeat split; assumption.
Defined.

(** ** Bearer tokens *)

(** The header [Bearer <token>] passes the scheme test and the split
    gives the token back. *)
Lemma get_current_user_bearer {J : Jose} (now : datetime) (token : string) :
  get_current_user now (Some ("Bearer " +:+ token))
  = match jwt_decode now token JWT_SECRET_KEY [JWT_ALGORITHM] with
    | Returned payload =>
        match payload !! "sub" with
        | None => Raised (HTTPException 401 "Invalid token payload")
        | Some username => Returned username
        end
    | Raised e =>
        if is_JWTError e
        then Raised (HTTPException 401 "Invalid or expired token")
        else Raised e
    end.
Proof.
  assert (H1 : String.eqb ("Bearer " +:+ token) EmptyString = false)
    by reflexivity.
  assert (H2 : String.prefix "Bearer " ("Bearer " +:+ token) = true)
    by (destruct token; reflexivity).
  assert (H3 : split_space_1 ("Bearer " +:+ token) !! 1%nat = Some token)
    by reflexivity.
  unfold get_current_user. by rewrite H1, H2, H3.
Qed.

(** What [jwt.encode] makes of the claim set of [create_access_token]. *)
Lemma intdate_claims (data : gmap string jval) (expire : datetime) :
  data !! "iat" = None → data !! "nbf" = None →
  alter intdate "nbf" (alter intdate "iat"
    (alter intdate "exp" (<["exp" := JDate expire]> data)))
  = <["exp" := JNum (timegm expire)]> data.
Proof.
  intros Hiat Hnbf. apply map_eq. intros k.
  rewrite !lookup_alter, !lookup_insert.
  repeat case_decide; subst; try done.
  all: first [by rewrite Hiat | by rewrite Hnbf | idtac].
Qed.

Lemma create_access_token_sub {J : Jose} (t0 : datetime) (u : string) :
  create_access_token t0 {["sub" := JStr u]} None
  = let claims :=
      <["exp" := JNum (timegm (t0 + timedelta_minutes 60))]>
        {["sub" := JStr u]} in
    jws_compact
      (Jws JWT_ALGORITHM claims (hmac JWT_SECRET_KEY JWT_ALGORITHM claims)).
Proof.
  unfold create_access_token, jwt_encode. cbn [or_default].
  by rewrite intdate_claims.
Qed.

Lemma timegm_mono (a b : datetime) : a ≤ b → timegm a ≤ timegm b.
Proof. intros Hab. unfold timegm. by apply Z.div_le_mono. Qed.

(** ** The claim validation of [jwt.decode] *)

Ltac case_validator :=
  repeat (case_match; try done); simplify_eq; try done.

(** Whatever the claim validation raises is a [JWTError]. *)
Lemma validate_claims_raises {J : Jose} (now : datetime)
    (claims : gmap string jval) (e : exn) :
  validate_claims now claims = Raised e → is_JWTError e = true.
Proof.
  unfold validate_claims, mbind, outcome_bind.
  unfold validate_iat, validate_nbf, validate_exp, validate_aud,
    validate_sub, validate_jti, validate_at_hash.
  intros H. case_validator.
Qed.

(** A claim set with an [exp] in the past does not pass. *)
Lemma validate_claims_expired {J : Jose} (now : datetime)
    (claims : gmap string jval) (exp : Z) :
  claims !! "exp" = Some (JNum exp) → exp < timegm now →
  ∃ e, validate_claims now claims = Raised e.
Proof.
  intros Hexp Hlt. apply Z.ltb_lt in Hlt.
  unfold validate_claims, mbind, outcome_bind.
  destruct (validate_iat claims) as [[]|e]; [|by eexists].
  destruct (validate_nbf now claims) as [[]|e]; [|by eexists].
  unfold validate_exp. rewrite Hexp. cbn [int_claim]. rewrite Hlt.
  by eexists.
Qed.

(** A claim set of a subject and an expiry not yet reached, or of a
    subject alone, passes. *)
Lemma validate_claims_plain {J : Jose} (now : datetime)
    (claims : gmap string jval) :
  claims !! "iat" = None → claims !! "nbf" = None →
  claims !! "aud" = None → claims !! "jti" = None →
  claims !! "at_hash" = None →
  (claims !! "exp" = None
   ∨ ∃ exp, claims !! "exp" = Some (JNum exp) ∧ timegm now ≤ exp) →
  (claims !! "sub" = None ∨ ∃ u, claims !! "sub" = Some (JStr u)) →
  validate_claims now claims = Returned tt.
Proof.
  intros Hiat Hnbf Haud Hjti Hat Hexp Hsub.
  unfold validate_claims, mbind, outcome_bind.
  unfold validate_iat, validate_nbf, validate_exp, validate_aud,
    validate_sub, validate_jti, validate_at_hash.
  rewrite Hiat, Hnbf, Haud, Hjti, Hat.
  destruct Hexp as [->|(exp & -> & Hle)];
    destruct Hsub as [->|(u & ->)]; cbn [int_claim]; try done.
  all: apply Z.ltb_ge in Hle; by rewrite Hle.
Qed.

Lemma jwt_decode_run {J : Jose} (now : datetime) (token : string) (t : jws) :
  jws_parse token = Some t → jws_alg t = JWT_ALGORITHM →
  jws_sig t = hmac JWT_SECRET_KEY (jws_alg t) (jws_claims t) →
  jwt_decode now token JWT_SECRET_KEY [JWT_ALGORITHM]
  = (validate_claims now (jws_claims t);; Returned (jws_claims t)).
Proof.
  intros Hp Halg Hsig. unfold jwt_decode. rewrite Hp.
  rewrite bool_decide_eq_true_2 by (by apply list_elem_of_singleton).
  by rewrite bool_decide_eq_true_2.
Qed.

Lemma jwt_decode_raises {J : Jose} (now : datetime) (token : string)
    (e : exn) :
  jwt_decode now token JWT_SECRET_KEY [JWT_ALGORITHM] = Raised e →
  is_JWTError e = true.
Proof.
  unfold jwt_decode. destruct (jws_parse token) as [t|]; [|by intros [= <-]].
  destruct (negb (bool_decide (jws_alg t ∈ [JWT_ALGORITHM])));
    [by intros [= <-]|].
  destruct (negb (bool_decide (jws_sig t = _))); [by intros [= <-]|].
  unfold mbind, outcome_bind.
  destruct (validate_claims now (jws_claims t)) as [[]|x] eqn:Hv; [done|].
  intros [= <-]. by apply (validate_claims_raises now (jws_claims t)).
Qed.


(** A token [jwt.decode] refuses is answered 401. *)
Lemma refused_token_401 {J : Jose} (now : datetime) (token : string)
    (e : exn) :
  jwt_decode now token JWT_SECRET_KEY [JWT_ALGORITHM] = Raised e →
  get_current_user now (Some ("Bearer " +:+ token))
  = Raised (HTTPException 401 "Invalid or expired token").
Proof.
  intros Hd. rewrite get_current_user_bearer, Hd.
  by rewrite (jwt_decode_raises now token e Hd).
Qed.

(** A token that does not parse, names another algorithm, carries a
    wrong signature or has expired is answered 401. *)
Lemma jwt_decode_rejects {J : Jose} (now : datetime) (token : string) :
  (jws_parse token = None
   ∨ ∃ t, jws_parse token = Some t
          ∧ (jws_alg t ≠ JWT_ALGORITHM
             ∨ jws_sig t ≠ hmac JWT_SECRET_KEY (jws_alg t) (jws_claims t)
             ∨ ∃ e, jws_claims t !! "exp" = Some (JNum e) ∧ e < timegm now)) →
  get_current_user now (Some ("Bearer " +:+ token))
  = Raised (HTTPException 401 "Invalid or expired token").
Proof.
  intros Hbad.
  assert (∃ e, jwt_decode now token JWT_SECRET_KEY [JWT_ALGORITHM]
               = Raised e) as [e He]; [|by eapply refused_token_401].
  unfold jwt_decode.
  destruct Hbad as [->|(t & -> & Hbad)]; [by eexists|].
  destruct (bool_decide (jws_alg t ∈ [JWT_ALGORITHM])) eqn:Halg;
    [|by eexists].
  apply bool_decide_eq_true, list_elem_of_singleton in Halg.
  cbn [negb].
  destruct (bool_decide (jws_sig t = _)) eqn:Hsig; [|by eexists].
  apply bool_decide_eq_true in Hsig. cbn [negb].
  destruct Hbad as [Hbad|[Hbad|(exp & Hexp & Hlt)]]; [done..|].
  destruct (validate_claims_expired now (jws_claims t) exp Hexp Hlt)
    as [e ->].
  by eexists.
Qed.

(** The token [create_access_token] makes for a subject passes as long
    as its expiry is not reached. *)
Lemma issued_token_accepted {J : Jose} (u : string) (exp : Z)
    (now : datetime) (token : string) :
  jws_parse token
  = Some (Jws JWT_ALGORITHM
            (<["exp" := JNum exp]> {["sub" := JStr u]})
            (hmac JWT_SECRET_KEY JWT_ALGORITHM
               (<["exp" := JNum exp]> {["sub" := JStr u]}))) →
  timegm now ≤ exp →
  get_current_user now (Some ("Bearer " +:+ token)) = Returned (JStr u).
Proof.
  intros Hp Hle. rewrite get_current_user_bearer.
  rewrite (jwt_decode_run now token _ Hp) by done.
  cbn [jws_claims]. rewrite validate_claims_plain.
  - unfold mbind, outcome_bind.
    rewrite lookup_insert_ne by done. by rewrite lookup_singleton_eq.
  - rewrite lookup_insert_ne by done. by apply lookup_singleton_ne.
  - rewrite lookup_insert_ne by done. by apply lookup_singleton_ne.
  - rewrite lookup_insert_ne by done. by apply lookup_singleton_ne.
  - rewrite lookup_insert_ne by done. by apply lookup_singleton_ne.
  - rewrite lookup_insert_ne by done. by apply lookup_singleton_ne.
  - right. exists exp. split; [apply lookup_insert_eq|done].
  - right. exists u. rewrite lookup_insert_ne by done.
    apply lookup_singleton_eq.
Qed.



(** [auth_login] issues a token, for the subject "demo", to the demo
    credentials and to no others. *)
Lemma auth_login_issues {J : Jose} (now : datetime) (body : LoginRequest) :
  auth_login now body
  = if decide (username body = DEMO_USERNAME
               ∧ password body = DEMO_PASSWORD)
    then Returned
           (TokenResponse
              (create_access_token now {["sub" := JStr DEMO_USERNAME]} None)
              "bearer")
    else Raised (HTTPException 401 "Invalid credentials").
Proof.
  unfold auth_login.
  destruct (String.eqb_spec (username body) DEMO_USERNAME) as [Hu|Hu];
    destruct (String.eqb_spec (password body) DEMO_PASSWORD) as [Hp|Hp];
    cbn [negb orb].
  - rewrite decide_True by done. by rewrite Hu.
  - rewrite decide_False by tauto. done.
  - rewrite decide_False by tauto. done.
  - rewrite decide_False by tauto. done.
Qed.

(** ** GET /api/v1/cart *)

Lemma enrich_step (item : cart_doc) (rest : list cart_doc)
    (acc : list cart_line) (w : world) :
  enrich (item :: rest) acc w
  = match products_container w with
    | None =>
        (w, Raised (AttributeError "'NoneType' object has no attribute"))
    | Some pc =>
        match fault pc with
        | Some e => (w, Raised e)
        | None =>
            match filter (λ c, p_id c = c_product_id item) (items pc) with
            | [] => enrich rest acc (rebind products pc w)
            | product :: _ =>
                enrich rest
                  (acc ++ [CartLine (p_id product) (p_name product)
                             (p_price product) (c_quantity item)
                             (default "🛒" (p_image product))
                             (default "General" (p_category product))])
                  (rebind products pc w)
            end
        end
    end.
Proof.
  cbn [enrich]. unfold_monad. cbn [proxy products].
  destruct (products_container w) as [pc|]; [|done].
  unfold query_items, guarded. destruct (fault pc); [done|].
  by destruct (filter _ (items pc)).
Qed.

(** Every line [enrich] adds joins a cart entry with the first product
    of the entry's product id, and takes its [id] from the product. *)
Lemma enrich_lines (l : list cart_doc) :
  ∀ (acc : list cart_line) (w w' : world) (lines : list cart_line),
    enrich l acc w = (w', Returned lines) →
    ∀ line, line ∈ lines →
      line ∈ acc
      ∨ ∃ item product pc,
          item ∈ l ∧ products_container w = Some pc ∧ product ∈ items pc
          ∧ p_id product = c_product_id item
          ∧ line_id line = c_product_id item
          ∧ line_quantity line = c_quantity item
          ∧ line_name line = p_name product
          ∧ line_price line = p_price product.
Proof.
  induction l as [|item rest IH]; intros acc w w' lines Hrun line Hline.
  - injection Hrun as <- <-. by left.
  - rewrite enrich_step in Hrun.
    destruct (products_container w) as [pc|] eqn:Hpc; [|done].
    destruct (fault pc); [done|].
    assert (Hpc' : products_container (rebind products pc w) = Some pc)
      by done.
    destruct (filter _ (items pc)) as [|product tl] eqn:Hf.
    + destruct (IH _ _ _ _ Hrun line Hline)
        as [Hacc|(it & p & pc' & Hit & Hp & Hrest)]; [by left|].
      right. exists it, p, pc'. split; [by right|].
      rewrite Hpc' in Hp. by split.
    + destruct (IH _ _ _ _ Hrun line Hline)
        as [Hacc|(it & p & pc' & Hit & Hp & Hrest)].
      * apply elem_of_app in Hacc as [Hacc|Hnew]; [by left|].
        apply list_elem_of_singleton in Hnew. subst line. right.
        assert (Hin : product ∈ filter (λ c, p_id c = c_product_id item)
                                  (items pc)).
        { rewrite Hf. by left. }
        apply list_elem_of_filter in Hin as [Hid Hin].
        exists item, product, pc. cbn.
        repeat split; try done. by left.
      * right. exists it, p, pc'. split; [by right|].
        rewrite Hpc' in Hp. by split.
Qed.

(** The storage ids of the cart entries do not reach the lines. *)
Lemma enrich_relabel (f : cart_doc → string) (l : list cart_doc) :
  ∀ (acc : list cart_line) (w1 w2 : world),
    products_container w1 = products_container w2 →
    (enrich (relabel f <$> l) acc w1).2 = (enrich l acc w2).2.
Proof.
  induction l as [|item rest IH]; intros acc w1 w2 Hp; [done|].
  rewrite fmap_cons, !enrich_step, <- Hp. cbn [relabel c_product_id c_quantity].
  destruct (products_container w1) as [pc|]; [|done].
  destruct (fault pc); [done|].
  destruct (filter _ (items pc)); by apply IH.
Qed.

Lemma filter_relabel (f : cart_doc → string) (l : list cart_doc) :
  filter (λ c, c_user_id c = DEFAULT_USER) (relabel f <$> l)
  = relabel f <$> filter (λ c, c_user_id c = DEFAULT_USER) l.
Proof.
  induction l as [|x l IH]; [done|]. rewrite fmap_cons.
  destruct (decide (c_user_id x = DEFAULT_USER)) as [Hx|Hx].
  - rewrite !filter_cons_True by done. by rewrite fmap_cons, IH.
  - by rewrite !filter_cons_False.
Qed.

(** C10: in every line [get_cart] returns, [id] is the id of the product
    the line joins, which is the [product_id] of a cart entry of the
    shared user; the entry's own storage id is not in the answer: giving
    the cart entries other storage ids leaves the answer as it is. *)
Theorem get_cart_line_id_is_product_id (u : jval) (w : world)
    (lines : list cart_line) :
  (get_cart u w).2 = Returned (Body lines) →
  (∀ line, line ∈ lines →
     ∃ item product cc pc,
       cart_container w = Some cc ∧ products_container w = Some pc
       ∧ item ∈ items cc ∧ c_user_id item = DEFAULT_USER
       ∧ product ∈ items pc ∧ p_id product = c_product_id item
       ∧ line_id line = p_id product
       ∧ line_quantity line = c_quantity item)
  ∧ (∀ f, (get_cart u (relabel_cart f w)).2 = Returned (Body lines)).
Proof.
  intros Hrun. split.
  - intros line Hline. revert Hrun.
    destruct w as [[pc|] [cc|] oc]; unfold get_cart; unfold_monad;
      unfold query_items, guarded; simpl;
      try (intros [= <-]; by apply elem_of_nil in Hline).
    destruct (fault cc); [done|].
    destruct (enrich _ _ _) as [w' [ls|e]] eqn:Hen; [|done].
    intros [= ->].
    destruct (enrich_lines _ _ _ _ _ Hen line Hline)
      as [Hnil|(item & product & pc' & Hit & Hp & Hpin & Hid & Hlid & Hq & _)].
    { by apply elem_of_nil in Hnil. }
    apply list_elem_of_filter in Hit as [Hu Hit].
    simpl in Hp. injection Hp as <-.
    exists item, product, cc, pc. repeat split; try done. congruence.
  - intros f. rewrite <- Hrun.
    destruct w as [[pc|] [cc|] oc]; try done.
    unfold get_cart, relabel_cart. unfold_monad.
    unfold query_items, guarded. simpl.
    destruct (fault cc); [done|].
    rewrite filter_relabel.
    pose proof (enrich_relabel f
      (filter (λ c, c_user_id c = DEFAULT_USER) (items cc)) []
      (World (Some pc)
         (Some (Container (relabel f <$> items cc) None)) oc)
      (World (Some pc) (Some cc) oc) eq_refl) as Heq.
    destruct (enrich (relabel f <$> _) _ _) as [w1 r1].
    destruct (enrich (filter _ _) _ _) as [w2 r2].
    simpl in Heq. subst r2. by destruct r1.
Qed.

Lemma get_cart_line_id_is_product_id_witness :
  (get_cart (JStr "demo")
     (relabel_cart (λ c, "x-" +:+ c_id c)
        (World (Some (Container seed_catalog None))
           (Some (Container [CartDoc "c-1" "demo_user" "8" 2] None))
           None))).2
  = Returned (Body [CartLine "8" "Desk Lamp LED" 2999 2 "💡" "Home"]).
Proof.
  apply (proj2 (get_cart_line_id_is_product_id (JStr "demo")
           (World (Some (Container seed_catalog None))
              (Some (Container [CartDoc "c-1" "demo_user" "8" 2] None))
              None)
           [CartLine "8" "Desk Lamp LED" 2999 2 "💡" "Home"]
           eq_refl)).
Defined.

(** ** One cart and one order history for all principals *)

Lemma replace_doc_elem_inv `{Document A} (d x : A) (l : list A) :
  x ∈ replace_doc d l → x = d ∨ x ∈ l.
Proof.
  induction l as [|y l IH]; cbn [replace_doc]; intros Hx.
  - by right.
  - destruct (decide (doc_key y = doc_key d)).
    + apply elem_of_cons in Hx as [->|Hx]; [by left|].
      right. by right.
    + apply elem_of_cons in Hx as [->|Hx]; [right; by left|].
      destruct (IH Hx) as [->|Hin]; [by left|]. right. by right.
Qed.

(** Whatever [add_to_cart] writes is filed under the shared user. *)
Lemma add_to_cart_files_under_default_user (uuid4 : string)
    (item : CartItem) (u : jval) (w : world) (cc cc' : container cart_doc) :
  cart_container w = Some cc →
  cart_container (add_to_cart uuid4 item u w).1 = Some cc' →
  ∀ d, d ∈ items cc' → d ∈ items cc ∨ c_user_id d = DEFAULT_USER.
Proof.
  destruct w as [pc cw oc]. cbn [cart_container]. intros ->.
  destruct cc as [l [e|]].
  - unfold add_to_cart. unfold_monad. unfold query_items, guarded. simpl.
    intros [= <-] d Hd. by left.
  - rewrite add_to_cart_run.
    destruct (filter _ l) as [|e0 rest] eqn:Hf.
    + destruct (has_key _ l); simpl; intros [= <-] d Hd; [by left|].
      apply elem_of_app in Hd as [Hd|Hd]; [by left|].
      apply list_elem_of_singleton in Hd. subst d. by right.
    + simpl. intros [= <-] d Hd.
      apply replace_doc_elem_inv in Hd as [->|Hd]; [|by left].
      right. cbn.
      assert (He : e0 ∈ filter (λ c, c_user_id c = DEFAULT_USER
                                     ∧ c_product_id c = product_id item) l).
      { rewrite Hf. by left. }
      apply list_elem_of_filter in He. tauto.
Qed.

(** An order [create_order] returns belongs to the shared user. *)
Lemma create_order_for_default_user (uuid4 : string) (utcnow : datetime)
    (u : jval) (w : world) (o : order) :
  (create_order uuid4 utcnow u w).2 = Returned (Body o) →
  o_user_id o = DEFAULT_USER.
Proof.
  destruct w as [pc [cc|] [oc|]]; try done.
  unfold create_order. unfold_monad.
  unfold query_items, create_item, guarded. simpl.
  destruct (fault cc); [done|]. simpl.
  destruct (fault oc); [done|]. simpl.
  destruct (has_key _ (items oc)); [done|]. simpl.
  destruct (for_each _ _ _) as [w' [[]|e]]; simpl; [|done].
  by intros [= <-].
Qed.

(** [get_orders] lists orders of the shared user only. *)
Lemma get_orders_of_default_user (u : jval) (w : world) (os : list order) :
  (get_orders u w).2 = Returned os →
  ∀ o, o ∈ os → o_user_id o = DEFAULT_USER.
Proof.
  destruct w as [pc cc [oc|]]; unfold get_orders; unfold_monad;
    unfold query_items, guarded; simpl.
  - destruct (fault oc); simpl; intros [= <-] o Ho.
    + by apply elem_of_nil in Ho.
    + by apply list_elem_of_filter in Ho as [Ho _].
  - intros [= <-] o Ho. by apply elem_of_nil in Ho.
Qed.

(** C9: two requests whose tokens verify, for whatever usernames, get
    the same answer and leave the same state, for each of the cart and
    order routes; what the routes write is filed under the shared user
    [DEFAULT_USER] and what they list is that user's. *)
Theorem cart_and_orders_shared_by_all_principals {J : Jose}
    (now1 now2 : datetime) (authorization1 authorization2 : option string)
    (u1 u2 : jval) (w : world) (uuid4 : string) (utcnow : datetime)
    (item : CartItem) (pid : string) :
  get_current_user now1 authorization1 = Returned u1 →
  get_current_user now2 authorization2 = Returned u2 →
  Depends now1 authorization1 get_cart w
  = Depends now2 authorization2 get_cart w
  ∧ Depends now1 authorization1 (add_to_cart uuid4 item) w
    = Depends now2 authorization2 (add_to_cart uuid4 item) w
  ∧ Depends now1 authorization1 (remove_from_cart pid) w
    = Depends now2 authorization2 (remove_from_cart pid) w
  ∧ Depends now1 authorization1 (create_order uuid4 utcnow) w
    = Depends now2 authorization2 (create_order uuid4 utcnow) w
  ∧ Depends now1 authorization1 get_orders w
    = Depends now2 authorization2 get_orders w
  ∧ (∀ cc cc' d,
       cart_container w = Some cc →
       cart_container
         (Depends now1 authorization1 (add_to_cart uuid4 item) w).1
       = Some cc' →
       d ∈ items cc' → d ∈ items cc ∨ c_user_id d = DEFAULT_USER)
  ∧ (∀ o,
       (Depends now1 authorization1 (create_order uuid4 utcnow) w).2
       = Returned (Body o) →
       o_user_id o = DEFAULT_USER)
  ∧ (∀ os o,
       (Depends now1 authorization1 get_orders w).2 = Returned os →
       o ∈ os → o_user_id o = DEFAULT_USER).
Proof.
  intros H1 H2. unfold Depends. rewrite H1, H2.
  repeat split.
  - intros cc cc' d Hc Hc' Hd.
    exact (add_to_cart_files_under_default_user _ _ _ _ _ _ Hc Hc' d Hd).
  - intros o. apply create_order_for_default_user.
  - intros os o Hr Ho. exact (get_orders_of_default_user _ _ _ Hr o Ho).
Qed.

Lemma cart_and_orders_shared_by_all_principals_witness :
  let w :=
    World (Some (Container seed_catalog None))
      (Some (Container [CartDoc "c-1" "demo_user" "8" 2] None))
      (Some (Container [] None)) in
  Depends (J := table_jose) 0 (Some "Bearer alice") get_cart w
  = Depends (J := table_jose) 1000000 (Some "Bearer bob") get_cart w
  ∧ Depends (J := table_jose) 0 (Some "Bearer alice")
      (create_order "0b5c" 5000000) w
    = Depends (J := table_jose) 1000000 (Some "Bearer bob")
        (create_order "0b5c" 5000000) w.
Proof.
  intros w.
  destruct (cart_and_orders_shared_by_all_principals (J := table_jose)
              0 1000000 (Some "Bearer alice") (Some "Bearer bob")
              (JStr "alice") (JStr "bob") w "0b5c" 5000000
              (MkCartItem "3" 1) "3" eq_refl eq_refl)
    as (Hcart & _ & _ & Horder & _).
  split; assumption.
Defined.

(** * Further properties of the handlers *)

(** ** The catalog reads *)

Lemma filter_all {A : Type} (l : list A) : filter (λ _ : A, True) l = l.
Proof.
  induction l as [|x l IH]; [done|].
  rewrite filter_cons_True by done. by rewrite IH.
Qed.

(** X1: on a responsive catalog [list_products] answers, in stored
    order, all products when no category is given, and also when the
    category given is the empty string; for any other category it
    answers exactly the products whose category equals it. *)
Theorem list_products_by_category (category : option string) (w : world)
    (pc : container product) :
  products_container w = Some pc → fault pc = None →
  list_products category w
  = (w,
     Returned
       (match category with
        | None => items pc
        | Some k =>
            if String.eqb k EmptyString then items pc
            else filter (λ p, p_category p = Some k) (items pc)
        end)).
Proof.
  destruct w as [pw cw ow]. cbn [products_container]. intros -> Hf.
  destruct pc as [l f]. cbn [fault items] in *. subst f.
  unfold list_products. unfold_monad. unfold query_items, guarded.
  destruct category as [k|]; cbn.
  - destruct (String.eqb k EmptyString); cbn; [by rewrite filter_all|done].
  - by rewrite filter_all.
Qed.

Lemma list_products_by_category_witness :
  list_products (Some "Sports")
    (World (Some (Container seed_catalog None)) None None)
  = (World (Some (Container seed_catalog None)) None None,
     Returned
       [Product "3" "Running Shoes X1"
          "Lightweight breathable running shoes"
          (Some "Sports") 8999 100 (Some "👟");
        Product "6" "Yoga Mat Premium"
          "Extra thick eco-friendly yoga mat"
          (Some "Sports") 3599 60 (Some "🧘")])
  ∧ list_products (Some EmptyString)
      (World (Some (Container seed_catalog None)) None None)
    = (World (Some (Container seed_catalog None)) None None,
       Returned seed_catalog).
Proof.
  split.
  - apply (list_products_by_category (Some "Sports")
             (World (Some (Container seed_catalog None)) None None)
             (Container seed_catalog None)); reflexivity.
  - apply (list_products_by_category (Some EmptyString)
             (World (Some (Container seed_catalog None)) None None)
             (Container seed_catalog None)); reflexivity.
Defined.

Lemma append_nil_l (s : string) : EmptyString +:+ s = s.
Proof. reflexivity. Qed.

Lemma append_cons (c : ascii) (a s : string) :
  String c a +:+ s = String c (a +:+ s).
Proof. reflexivity. Qed.

Lemma prefix_append (q s : string) :
  String.prefix q s = true ↔ ∃ b, s = q +:+ b.
Proof.
  revert s. induction q as [|a q IH]; intros s.
  - split; [|by destruct s]. intros _. by exists s.
  - destruct s as [|c s]; cbn [String.prefix].
    + split; [done|]. intros [b Hb]. by rewrite append_cons in Hb.
    + destruct (Ascii.ascii_dec a c) as [->|Hne].
      * rewrite IH. split; intros [b Hb]; exists b.
        -- by rewrite append_cons, Hb.
        -- rewrite append_cons in Hb. by injection Hb.
      * split; [done|]. intros [b Hb]. rewrite append_cons in Hb.
        injection Hb as Hac _. congruence.
Qed.

(** [contains] is the substring test. *)
Lemma contains_substring (s q : string) :
  contains s q = true ↔ ∃ a b, s = a +:+ q +:+ b.
Proof.
  induction s as [|c s IH]; cbn [contains].
  - rewrite orb_false_r, prefix_append. split.
    + intros [b Hb]. by exists EmptyString, b.
    + intros (a & b & Hab). destruct a as [|c a].
      * by exists b.
      * by rewrite append_cons in Hab.
  - rewrite orb_true_iff, prefix_append, IH. split.
    + intros [[b Hb]|(a & b & Hab)].
      * by exists EmptyString, b.
      * exists (String c a), b. by rewrite append_cons, Hab.
    + intros (a & b & Hab). destruct a as [|c' a].
      * left. by exists b.
      * right. rewrite append_cons in Hab. injection Hab as _ Hab.
        by exists a, b.
Qed.

(** X2: on a responsive catalog [search_products] answers exactly the
    products in whose name or category the query occurs as a substring
    (case-sensitive), in stored order; the empty query answers the whole
    catalog. *)
Theorem search_products_substring (q : string) (w : world)
    (pc : container product) :
  products_container w = Some pc → fault pc = None →
  ∃ found,
    search_products q w = (w, Returned found)
    ∧ found `sublist_of` items pc
    ∧ (∀ p, p ∈ found ↔
         p ∈ items pc
         ∧ ((∃ a b, p_name p = a +:+ q +:+ b)
            ∨ ∃ k a b, p_category p = Some k ∧ k = a +:+ q +:+ b))
    ∧ (q = EmptyString → found = items pc).
Proof.
  destruct w as [pw cw ow]. cbn [products_container]. intros -> Hf.
  destruct pc as [l f]. cbn [fault items] in *. subst f.
  exists (filter (λ c : product,
            contains (p_name c) q
            || from_option (λ k, contains k q) false (p_category c)) l).
  split; [|split; [|split]].
  - unfold search_products. unfold_monad. unfold query_items, guarded.
    reflexivity.
  - apply sublist_filter.
  - intros p. rewrite list_elem_of_filter, Is_true_true, orb_true_iff.
    rewrite contains_substring. split.
    + intros [Hm Hin]. split; [done|].
      destruct Hm as [Hm|Hm]; [by left|right].
      destruct (p_category p) as [k|]; [|done]. cbn in Hm.
      apply contains_substring in Hm as (a & b & Hab). by exists k, a, b.
    + intros [Hin Hm]. split; [|done].
      destruct Hm as [Hn|(k & a & b & Hk & Hab)]; [by left|right].
      rewrite Hk. cbn. apply contains_substring. by exists a, b.
  - intros ->. rewrite <- (filter_all l) at 2. apply list_filter_iff.
    intros p. split; [done|]. intros _.
    apply Is_true_true, orb_true_iff. left. by destruct (p_name p).
Qed.

Lemma search_products_substring_witness :
  ∃ found,
    search_products "Pro"
      (World (Some (Container seed_catalog None)) None None)
    = (World (Some (Container seed_catalog None)) None None, Returned found)
    ∧ found `sublist_of` seed_catalog.
Proof.
  destruct (search_products_substring "Pro"
              (World (Some (Container seed_catalog None)) None None)
              (Container seed_catalog None) eq_refl eq_refl)
    as (found & Hrun & Hsub & _).
  exists found. split; assumption.
Defined.

Lemma category_of_each_all (l : list (option string)) (w : world) :
  (∀ x, x ∈ l → is_Some x) →
  ∃ ks, category_of_each l w = (w, Returned ks) ∧ Some <$> ks = l.
Proof.
  induction l as [|x l IH]; intros Hall.
  - by exists [].
  - destruct (Hall x ltac:(by left)) as [k ->].
    destruct IH as (ks & Hrun & Hks).
    { intros y Hy. apply Hall. by right. }
    exists (k :: ks). cbn [category_of_each]. unfold_monad.
    rewrite Hrun. by rewrite fmap_cons, Hks.
Qed.

Lemma category_of_each_missing (l : list (option string)) (w : world) :
  None ∈ l → category_of_each l w = (w, Raised (KeyError "category")).
Proof.
  induction l as [|x l IH]; intros Hin.
  - by apply elem_of_nil in Hin.
  - destruct x as [k|]; [|done].
    apply elem_of_cons in Hin as [?|Hin]; [done|].
    cbn [category_of_each]. unfold_monad. by rewrite IH.
Qed.

(** X3: on a responsive catalog in which every product has a category,
    [get_categories] answers each category that occurs exactly once.
    One product without a category makes the answer the empty list. *)
Theorem get_categories_distinct (w : world) (pc : container product) :
  products_container w = Some pc → fault pc = None →
  ((∀ p, p ∈ items pc → is_Some (p_category p)) →
     ∃ ks, get_categories w = (w, Returned ks)
           ∧ NoDup ks
           ∧ ∀ k, k ∈ ks ↔ ∃ p, p ∈ items pc ∧ p_category p = Some k)
  ∧ ((∃ p, p ∈ items pc ∧ p_category p = None) →
     get_categories w = (w, Returned [])).
Proof.
  destruct w as [pw cw ow]. cbn [products_container]. intros -> Hf.
  destruct pc as [l f]. cbn [fault items] in *. subst f. split.
  - intros Hall.
    destruct (category_of_each_all (remove_dups (p_category <$> l))
                (World (Some (Container l None)) cw ow))
      as (ks & Hrun & Hks).
    { intros x Hx. apply elem_of_remove_dups, list_elem_of_fmap in Hx
        as (p & -> & Hp). by apply Hall. }
    exists ks. split; [|split].
    + unfold get_categories. unfold_monad.
      unfold query_distinct_category, guarded. cbn [proxy products
        products_container fault items rebind cart_container
        orders_container bool_decide negb].
      cbn. cbn in Hrun. by rewrite Hrun.
    + apply (NoDup_fmap_1 Some). rewrite Hks. apply NoDup_remove_dups.
    + intros k. rewrite <- (list_elem_of_fmap_inj Some), Hks.
      rewrite elem_of_remove_dups, list_elem_of_fmap.
      split; intros (p & Hk & Hp); by exists p.
  - intros (p & Hp & Hnone).
    unfold get_categories. unfold_monad.
    unfold query_distinct_category, guarded. cbn.
    rewrite category_of_each_missing; [done|].
    apply elem_of_remove_dups, list_elem_of_fmap. by exists p.
Qed.

Lemma get_categories_distinct_witness :
  (∃ ks,
     get_categories (World (Some (Container seed_catalog None)) None None)
     = (World (Some (Container seed_catalog None)) None None, Returned ks)
     ∧ NoDup ks)
  ∧ (let w :=
       World
         (Some (Container
            (seed_catalog
             ++ [Product "9" "Gift Card" "Prepaid" None 1000 5 None]) None))
         None None in
     get_categories w = (w, Returned [])).
Proof.
  split.
  - destruct (proj1 (get_categories_distinct
                (World (Some (Container seed_catalog None)) None None)
                (Container seed_catalog None) eq_refl eq_refl))
      as (ks & Hrun & Hnd & _).
    { intros p Hp. unfold seed_catalog in Hp.
      repeat (apply elem_of_cons in Hp as [->|Hp]; [by eexists|]).
      by apply elem_of_nil in Hp. }
    exists ks. split; assumption.
  - intros w.
    apply (proj2 (get_categories_distinct w
             (Container
                (seed_catalog
                 ++ [Product "9" "Gift Card" "Prepaid" None 1000 5 None])
                None) eq_refl eq_refl)).
    exists (Product "9" "Gift Card" "Prepaid" None 1000 5 None).
    split; [|reflexivity]. apply elem_of_app. right. by left.
Defined.

(** ** Running without a store, and on a failing store *)

(** X4: a handler whose container handle is [None] does not touch the
    store: the reads answer the empty list and the writes answer the
    error object "Database not available". *)
Theorem unconfigured_store_degrades (w : world) :
  (products_container w = None →
     (∀ category, list_products category w = (w, Returned []))
     ∧ (∀ q, search_products q w = (w, Returned []))
     ∧ get_categories w = (w, Returned [])
     ∧ (∀ u, get_cart u w = (w, Returned (Body []))))
  ∧ (cart_container w = None →
     (∀ u, get_cart u w = (w, Returned (Body [])))
     ∧ (∀ uuid4 item u,
          add_to_cart uuid4 item u w
          = (w, Returned (ErrorObj "Database not available")))
     ∧ (∀ pid u,
          remove_from_cart pid u w
          = (w, Returned (ErrorObj "Database not available")))
     ∧ (∀ uuid4 utcnow u,
          create_order uuid4 utcnow u w
          = (w, Returned (ErrorObj "Database not available"))))
  ∧ (orders_container w = None →
     (∀ u, get_orders u w = (w, Returned []))
     ∧ (∀ uuid4 utcnow u,
          create_order uuid4 utcnow u w
          = (w, Returned (ErrorObj "Database not available")))).
Proof.
  destruct w as [pc cc oc]. cbn [products_container cart_container
    orders_container].
  split; [|split]; intros ->; repeat split; intros; try reflexivity.
  - by destruct cc.
  - by destruct oc.
Qed.

Lemma unconfigured_store_degrades_witness :
  get_cart (JStr "demo") (World None None None)
  = (World None None None, Returned (Body []))
  ∧ create_order "0b5c" 0 (JStr "demo")
      (World None (Some (Container [] None)) None)
    = (World None (Some (Container [] None)) None,
       Returned (ErrorObj "Database not available")).
Proof.
  split.
  - apply (unconfigured_store_degrades (World None None None)). reflexivity.
  - apply (proj2 (proj2 (proj2 (unconfigured_store_degrades
             (World None (Some (Container [] None)) None))) eq_refl)).
Defined.

Lemma guarded_handler_returns {A : Type} (b : bool) (dflt : A)
    (body : M A) (h : exn → A) (w : world) :
  ∃ r,
    ((if b then mret dflt
      else try_except body Exception (λ e, mret (h e))) w).2
    = Returned r.
Proof.
  destruct b; [by eexists|].
  unfold try_except. destruct (body w) as [w' [a|e]]; by eexists.
Qed.

(** X6: no handler other than [get_product] ever raises: in every state
    of the handles and of the store each of them returns an answer. *)
Theorem handlers_never_raise (w : world) :
  (∀ category, ∃ r, (list_products category w).2 = Returned r)
  ∧ (∀ q, ∃ r, (search_products q w).2 = Returned r)
  ∧ (∃ r, (get_categories w).2 = Returned r)
  ∧ (∀ u, ∃ r, (get_cart u w).2 = Returned r)
  ∧ (∀ uuid4 item u, ∃ r, (add_to_cart uuid4 item u w).2 = Returned r)
  ∧ (∀ pid u, ∃ r, (remove_from_cart pid u w).2 = Returned r)
  ∧ (∀ uuid4 utcnow u, ∃ r, (create_order uuid4 utcnow u w).2 = Returned r)
  ∧ (∀ u, ∃ r, (get_orders u w).2 = Returned r).
Proof.
  repeat split; intros.
  - exact (guarded_handler_returns
             (negb (bool_decide (is_Some (products_container w))))
             [] _ (λ _, []) w).
  - exact (guarded_handler_returns
             (negb (bool_decide (is_Some (products_container w))))
             [] _ (λ _, []) w).
  - exact (guarded_handler_returns
             (negb (bool_decide (is_Some (products_container w))))
             [] _ (λ _, []) w).
  - exact (guarded_handler_returns
             (negb (bool_decide (is_Some (cart_container w)))
              || negb (bool_decide (is_Some (products_container w))))
             (Body []) _ (λ e, ErrorObj (str e)) w).
  - exact (guarded_handler_returns
             (negb (bool_decide (is_Some (cart_container w))))
             (ErrorObj "Database not available") _
             (λ e, ErrorObj (str e)) w).
  - exact (guarded_handler_returns
             (negb (bool_decide (is_Some (cart_container w))))
             (ErrorObj "Database not available") _
             (λ e, ErrorObj (str e)) w).
  - exact (guarded_handler_returns
             (negb (bool_decide (is_Some (orders_container w)))
              || negb (bool_decide (is_Some (cart_container w))))
             (ErrorObj "Database not available") _
             (λ e, ErrorObj (str e)) w).
  - exact (guarded_handler_returns
             (negb (bool_decide (is_Some (orders_container w))))
             [] _ (λ _, []) w).
Qed.

Lemma reads_degrade_to_empty_witness :
  let e := ServiceRequestError "connection refused" in
  let w :=
    World (Some (Container seed_catalog (Some e))) None
      (Some (Container [] (Some e))) in
  list_products None w = (w, Returned [])
  ∧ get_orders (JStr "demo") w = (w, Returned []).
Proof.
  intros e w. split.
  - apply (proj1 (reads_degrade_to_empty w)
             (Container seed_catalog (Some e)) e None); reflexivity.
  - apply (proj2 (proj2 (proj2 (reads_degrade_to_empty w)))
             (Container [] (Some e)) e (JStr "demo")); reflexivity.
Defined.

(** X7: [get_product] lets through what its except clause does not
    name: when the query raises an exception that is not a Cosmos HTTP
    error (a transport failure), the handler raises that same exception
    and no [HTTPException]. *)
Theorem get_product_lets_other_exceptions_through (product_id : string)
    (w : world) (pc : container product) (e : exn) :
  products_container w = Some pc → fault pc = Some e →
  is_CosmosHttpResponseError e = false →
  get_product product_id w = (w, Raised e).
Proof.
  intros Hpc Hf He. by rewrite get_product_run, Hpc, Hf, He.
Qed.

Lemma get_product_lets_other_exceptions_through_witness :
  let w :=
    World
      (Some (Container seed_catalog
               (Some (ServiceRequestError "connection refused"))))
      None None in
  get_product "1" w = (w, Raised (ServiceRequestError "connection refused")).
Proof.
  intros w.
  apply (get_product_lets_other_exceptions_through "1" w
           (Container seed_catalog
              (Some (ServiceRequestError "connection refused")))
           (ServiceRequestError "connection refused")); reflexivity.
Defined.

(** X8: when the cart store is in a state where its calls raise, so that
    the query each write handler starts with raises, the handler answers
    the error object with the text of that exception and leaves every
    container as it was. *)
Theorem writes_answer_store_error (w : world) (cc : container cart_doc)
    (e : exn) :
  cart_container w = Some cc → fault cc = Some e →
  (∀ uuid4 item u,
     add_to_cart uuid4 item u w = (w, Returned (ErrorObj (str e))))
  ∧ (∀ pid u,
       remove_from_cart pid u w = (w, Returned (ErrorObj (str e))))
  ∧ (∀ uuid4 utcnow u, is_Some (orders_container w) →
       create_order uuid4 utcnow u w = (w, Returned (ErrorObj (str e)))).
Proof.
  destruct w as [pc cw oc]. cbn [cart_container orders_container].
  intros -> Hf. repeat split; intros.
  - unfold add_to_cart. unfold_monad. unfold query_items, guarded. cbn.
    by rewrite Hf.
  - unfold remove_from_cart. unfold_monad. unfold query_items, guarded.
    cbn. by rewrite Hf.
  - destruct oc as [oc|]; [|by destruct H].
    unfold create_order. unfold_monad. unfold query_items, guarded. cbn.
    by rewrite Hf.
Qed.

Lemma writes_answer_store_error_witness :
  let w :=
    World None
      (Some (Container [CartDoc "c-1" "demo_user" "3" 2]
               (Some (ServiceRequestError "connection refused"))))
      None in
  remove_from_cart "3" (JStr "demo") w
  = (w, Returned (ErrorObj "connection refused")).
Proof.
  intros w.
  apply (proj1 (proj2 (writes_answer_store_error w
           (Container [CartDoc "c-1" "demo_user" "3" 2]
              (Some (ServiceRequestError "connection refused")))
           (ServiceRequestError "connection refused")
           eq_refl eq_refl))).
Defined.

(** X9: when the order cannot be persisted, because the orders store
    raises or because the generated id is taken, [create_order] answers
    an error object, persists nothing and deletes no cart entry. *)
Theorem create_order_failure_keeps_cart (uuid4 : string)
    (utcnow : datetime) (u : jval) (pc : option (container product))
    (l : list cart_doc) (oc : container order) :
  (is_Some (fault oc)
   ∨ has_key (Some DEFAULT_USER, uuid4) (items oc) = true) →
  ∃ error,
    create_order uuid4 utcnow u
      (World pc (Some (Container l None)) (Some oc))
    = (World pc (Some (Container l None)) (Some oc),
       Returned (ErrorObj error)).
Proof.
  intros Hbad. unfold create_order. unfold_monad.
  unfold query_items, create_item, guarded. cbn.
  destruct (fault oc) as [e|] eqn:Hf; [by eexists|].
  destruct Hbad as [[e He]|Hkey]; [done|].
  unfold doc_key. cbn. rewrite Hkey. by eexists.
Qed.

Lemma create_order_failure_keeps_cart_witness :
  ∃ error,
    create_order "0b5c" 0 (JStr "demo")
      (World None (Some (Container [CartDoc "c-1" "demo_user" "3" 2] None))
         (Some (Container [Order "0b5c" "demo_user" [] "confirmed" 0] None)))
    = (World None (Some (Container [CartDoc "c-1" "demo_user" "3" 2] None))
         (Some (Container [Order "0b5c" "demo_user" [] "confirmed" 0] None)),
       Returned (ErrorObj error)).
Proof.
  apply (create_order_failure_keeps_cart "0b5c" 0 (JStr "demo") None
           [CartDoc "c-1" "demo_user" "3" 2]
           (Container [Order "0b5c" "demo_user" [] "confirmed" 0] None)).
  right. reflexivity.
Defined.

(** ** Start-up and seeding *)






(** X10: [init_cosmos] leaves the handles as they are when the endpoint
    or the key is missing.  With both, an exception of the client
    constructor leaves [init_cosmos] as it was raised and no handle is
    bound.  When the client, the database and the three container
    proxies are obtained, it binds the three handles and returns; it
    seeds the catalog exactly when a responsive catalog is empty; a
    catalog that holds documents is left as it is, and a catalog that
    raises is left unseeded. *)
Theorem init_cosmos_result (endpoint key : string) (azure : sdk)
    (w0 : world) :
  ((endpoint = EmptyString ∨ key = EmptyString) →
     init_cosmos endpoint key azure w0 = (w0, Returned tt))
  ∧ (endpoint ≠ EmptyString → key ≠ EmptyString →
     (∀ e, CosmosClient azure = Raised e →
        init_cosmos endpoint key azure w0 = (w0, Raised e))
     ∧ (∀ rp rc ro,
          azure = Sdk (Returned tt) (Returned tt) (Returned rp)
                    (Returned rc) (Returned ro) →
          init_cosmos endpoint key azure w0
          = (World
               (Some (match fault rp, items rp with
                      | None, [] => Container seed_catalog None
                      | _, _ => rp
                      end))
               (Some rc) (Some ro),
             Returned tt))).
Proof.
  split.
  - intros Hmissing. unfold init_cosmos.
    destruct Hmissing as [-> | ->]; [done|].
    by rewrite orb_true_r.
  - intros He Hk. unfold init_cosmos.
    apply String.eqb_neq in He, Hk. rewrite He, Hk. cbn [orb]. split.
    + intros e Hc. unfold mbind at 1, M_bind at 1, eval at 1.
      by rewrite Hc.
    + intros rp rc ro ->. destruct rp as [l [e|]].
      * reflexivity.
      * destruct l as [|p l]; [reflexivity|].
        unfold_monad. unfold eval, assign, query_items, guarded.
        cbn -[filter]. by rewrite filter_all.
Qed.

Lemma init_cosmos_result_witness :
  init_cosmos EmptyString "key"
    (Sdk (Returned tt) (Returned tt) (Returned (Container [] None))
       (Returned (Container [] None)) (Returned (Container [] None)))
    (World None None None)
  = (World None None None, Returned tt)
  ∧ init_cosmos "https://cloudmart.documents.azure.com" "key"
      (Sdk (Raised (ServiceRequestError "Incorrect padding"))
         (Returned tt) (Returned (Container [] None))
         (Returned (Container [] None)) (Returned (Container [] None)))
      (World None None None)
    = (World None None None,
       Raised (ServiceRequestError "Incorrect padding"))
  ∧ init_cosmos "https://cloudmart.documents.azure.com" "a2V5"
      (Sdk (Returned tt) (Returned tt) (Returned (Container [] None))
         (Returned (Container [] None)) (Returned (Container [] None)))
      (World None None None)
    = (World (Some (Container seed_catalog None))
         (Some (Container [] None)) (Some (Container [] None)),
       Returned tt).
Proof.
  split; [|split].
  - apply (proj1 (init_cosmos_result EmptyString "key" _
             (World None None None))).
    by left.
  - apply (proj1 (proj2 (init_cosmos_result
             "https://cloudmart.documents.azure.com" "key" _
             (World None None None)) ltac:(discriminate)
             ltac:(discriminate))).
    reflexivity.
  - apply (proj2 (proj2 (init_cosmos_result
             "https://cloudmart.documents.azure.com" "a2V5" _
             (World None None None)) ltac:(discriminate)
             ltac:(discriminate))
             (Container [] None) (Container [] None) (Container [] None)).
    reflexivity.
Defined.


(** ** The cart and the orders, one request after the other *)

Lemma enrich_join (pc : container product)
    (cc : option (container cart_doc)) (oc : option (container order)) :
  fault pc = None →
  ∀ (l : list cart_doc) (acc : list cart_line),
    enrich l acc (World (Some pc) cc oc)
    = (World (Some pc) cc oc,
       Returned
         (acc ++ omap (λ item,
            (λ product,
               CartLine (p_id product) (p_name product) (p_price product)
                 (c_quantity item) (default "🛒" (p_image product))
                 (default "General" (p_category product)))
            <$> head (filter (λ c, p_id c = c_product_id item) (items pc)))
            l)).
Proof.
  intros Hf. induction l as [|item rest IH]; intros acc.
  - cbn [enrich omap list_omap]. by rewrite app_nil_r.
  - rewrite enrich_step. cbn [products_container rebind products
      cart_container orders_container]. rewrite Hf.
    cbn [omap list_omap].
    destruct (filter _ (items pc)) as [|product tl]; cbn [head fmap
      option_fmap option_map].
    + apply IH.
    + rewrite IH. by rewrite <- app_assoc.
Qed.

Lemma get_cart_run (u : jval) (lp : list product) (lc : list cart_doc)
    (oc : option (container order)) :
  get_cart u (World (Some (Container lp None)) (Some (Container lc None)) oc)
  = (World (Some (Container lp None)) (Some (Container lc None)) oc,
     Returned (Body
       (omap (λ item,
          (λ product,
             CartLine (p_id product) (p_name product) (p_price product)
               (c_quantity item) (default "🛒" (p_image product))
               (default "General" (p_category product)))
          <$> head (filter (λ c, p_id c = c_product_id item) lp))
          (filter (λ c, c_user_id c = DEFAULT_USER) lc)))).
Proof.
  pose proof (enrich_join (Container lp None) (Some (Container lc None)) oc
    eq_refl (filter (λ c, c_user_id c = DEFAULT_USER) lc) []) as Hen.
  unfold get_cart. unfold_monad. unfold query_items, guarded.
  cbn -[enrich filter omap] in *. by rewrite Hen.
Qed.

(** X12: on responsive stores [get_cart] answers, in cart order, one
    line for each entry of the shared user whose product is in the
    catalog: the first product of that id gives id, name and price, with
    the picture and the category replaced by their defaults when the
    product has none, and the entry gives the quantity.  Entries whose
    product is missing are left out.  The store is not changed. *)
Theorem get_cart_joins_entries_with_products (u : jval) (w : world)
    (pc : container product) (cc : container cart_doc)
    (oc : option (container order)) :
  w = World (Some pc) (Some cc) oc → fault pc = None → fault cc = None →
  get_cart u w
  = (w,
     Returned (Body
       (omap (λ item,
          (λ product,
             CartLine (p_id product) (p_name product) (p_price product)
               (c_quantity item) (default "🛒" (p_image product))
               (default "General" (p_category product)))
          <$> head (filter (λ c, p_id c = c_product_id item) (items pc)))
          (filter (λ c, c_user_id c = DEFAULT_USER) (items cc))))).
Proof.
  intros -> Hfp Hfc.
  destruct pc as [lp fp], cc as [lc fc]. cbn [fault items] in *. subst fp fc.
  apply get_cart_run.
Qed.

Lemma get_cart_joins_entries_with_products_witness :
  let w :=
    World (Some (Container seed_catalog None))
      (Some (Container [CartDoc "c-1" "demo_user" "8" 2;
                        CartDoc "c-2" "demo_user" "77" 1;
                        CartDoc "c-3" "someone" "1" 4] None))
      None in
  get_cart (JStr "demo") w
  = (w, Returned (Body [CartLine "8" "Desk Lamp LED" 2999 2 "💡" "Home"])).
Proof.
  intros w.
  apply (get_cart_joins_entries_with_products (JStr "demo") w
           (Container seed_catalog None)
           (Container [CartDoc "c-1" "demo_user" "8" 2;
                       CartDoc "c-2" "demo_user" "77" 1;
                       CartDoc "c-3" "someone" "1" 4] None)
           None); reflexivity.
Defined.

Lemma get_orders_run (u : jval) (pc : option (container product))
    (cc : option (container cart_doc)) (lo : list order) :
  get_orders u (World pc cc (Some (Container lo None)))
  = (World pc cc (Some (Container lo None)),
     Returned (filter (λ c, o_user_id c = DEFAULT_USER) lo)).
Proof. reflexivity. Qed.

(** X13: right after [create_order] has returned an order, [get_orders]
    lists that order together with exactly the orders of the shared user
    it listed before the call: the same elements and one more, whatever
    their positions. *)
Theorem placed_order_is_listed (uuid4 : string) (utcnow : datetime)
    (u u' : jval) (pc : option (container product)) (l : list cart_doc)
    (lo : list order) :
  unique_keys l →
  has_key (Some DEFAULT_USER, uuid4) lo = false →
  ∃ o w' before after,
    create_order uuid4 utcnow u
      (World pc (Some (Container l None)) (Some (Container lo None)))
    = (w', Returned (Body o))
    ∧ get_orders u'
        (World pc (Some (Container l None)) (Some (Container lo None)))
      = (World pc (Some (Container l None)) (Some (Container lo None)),
         Returned before)
    ∧ get_orders u' w' = (w', Returned after)
    ∧ after ≡ₚ o :: before.
Proof.
  intros Hkeys Hfresh. eexists _, _, _, _.
  split; [by apply create_order_run|]. split; [apply get_orders_run|].
  cbn zeta. split; [apply get_orders_run|].
  rewrite filter_app, filter_cons_True, filter_nil by done.
  by rewrite Permutation_app_comm.
Qed.

Lemma placed_order_is_listed_witness :
  ∃ o w' after,
    create_order "0b5c" 1700000000000000 (JStr "demo")
      (World None (Some (Container [CartDoc "c-1" "demo_user" "3" 2] None))
         (Some (Container [] None)))
    = (w', Returned (Body o))
    ∧ get_orders (JStr "demo") w' = (w', Returned after)
    ∧ after ≡ₚ [o].
Proof.
  destruct (placed_order_is_listed "0b5c" 1700000000000000 (JStr "demo")
              (JStr "demo") None [CartDoc "c-1" "demo_user" "3" 2] []
              ltac:(unfold unique_keys; compute_done) eq_refl)
    as (o & w' & before & after & Hrun & Hbefore & Hlist & Hperm).
  exists o, w', after. split; [exact Hrun|]. split; [exact Hlist|].
  injection Hbefore as <-. exact Hperm.
Defined.

(** One call of [add_to_cart] on a well-formed cart. *)
Lemma add_to_cart_once (uuid4 pid : string) (q : Z) (u : jval)
    (pc : option (container product)) (oc : option (container order))
    (l : list cart_doc) :
  unique_keys l → one_line_per_product l →
  (filter (λ c, c_user_id c = DEFAULT_USER ∧ c_product_id c = pid) l = [] →
   has_key (Some DEFAULT_USER, uuid4) l = false) →
  ∃ l' e,
    add_to_cart uuid4 (MkCartItem pid q) u
      (World pc (Some (Container l None)) oc)
    = (World pc (Some (Container l' None)) oc,
       Returned (Body (Message "Saved to Cosmos DB")))
    ∧ filter (λ c, c_user_id c = DEFAULT_USER ∧ c_product_id c = pid) l'
      = [e]
    ∧ c_product_id e = pid ∧ c_quantity e = q.
Proof.
  intros Hkeys Hone Hfresh.
  destruct (filter (λ c, c_user_id c = DEFAULT_USER ∧ c_product_id c = pid) l)
    as [|e0 rest] eqn:Hf.
  - specialize (Hfresh eq_refl).
    exists (l ++ [CartDoc uuid4 DEFAULT_USER pid q]),
           (CartDoc uuid4 DEFAULT_USER pid q).
    split; [|split; [|done]].
    + rewrite add_to_cart_run. cbn [product_id quantity].
      by rewrite Hf, Hfresh.
    + by rewrite filter_app, Hf, filter_cons_True.
  - destruct (filter_split_first _ l e0 rest Hf)
      as (a & b & -> & Ha & Hb & [Hu Hp]).
    pose proof (one_line_rest_nil pid a b e0 Hone Hu Hp) as Hbnil.
    assert (Hk : doc_key e0 ∉ doc_key <$> a).
    { unfold unique_keys in Hkeys. rewrite fmap_app, fmap_cons in Hkeys.
      apply NoDup_app in Hkeys as (_ & Hdisj & _).
      intros Hin. apply (Hdisj _ Hin). by left. }
    exists (a ++ set_quantity e0 q :: b), (set_quantity e0 q).
    split; [|split; [|done]].
    + by apply add_to_cart_update.
    + by rewrite filter_app, Ha, filter_cons_True, Hbnil.
Qed.

Lemma lines_of_product (pid : string) (lp : list product)
    (l : list cart_doc) :
  filter (λ line, line_id line = pid)
    (omap (λ item,
       (λ product,
          CartLine (p_id product) (p_name product) (p_price product)
            (c_quantity item) (default "🛒" (p_image product))
            (default "General" (p_category product)))
       <$> head (filter (λ c, p_id c = c_product_id item) lp)) l)
  = omap (λ item,
       (λ product,
          CartLine (p_id product) (p_name product) (p_price product)
            (c_quantity item) (default "🛒" (p_image product))
            (default "General" (p_category product)))
       <$> head (filter (λ c, p_id c = c_product_id item) lp))
      (filter (λ item, c_product_id item = pid) l).
Proof.
  induction l as [|item l IH]; [done|].
  cbn [omap list_omap].
  destruct (filter (λ c, p_id c = c_product_id item) lp)
    as [|product tl] eqn:Hf; cbn [head fmap option_fmap option_map].
  - destruct (decide (c_product_id item = pid)) as [Hp|Hp].
    + rewrite filter_cons_True by done. cbn [omap list_omap].
      rewrite Hf. cbn [head fmap option_fmap option_map]. apply IH.
    + rewrite filter_cons_False by done. apply IH.
  - assert (Hid : p_id product = c_product_id item).
    { assert (Hin : product ∈ filter (λ c, p_id c = c_product_id item) lp)
        by (rewrite Hf; by left).
      by apply list_elem_of_filter in Hin as [Hin _]. }
    destruct (decide (c_product_id item = pid)) as [Hp|Hp].
    + rewrite !filter_cons_True by (done || by cbn; congruence).
      cbn [omap list_omap]. rewrite Hf.
      cbn [head fmap option_fmap option_map]. by rewrite IH.
    + rewrite !filter_cons_False by (done || by cbn; congruence).
      apply IH.
Qed.

(** X14: on responsive stores with a well-formed cart and a catalog of
    unique ids, after [add_to_cart] for a product of the catalog with
    quantity q, [get_cart] shows exactly one line for that product, with
    the product's id, name and price and the quantity q. *)
Theorem added_product_shows_in_cart (uuid4 : string) (q : Z) (u u' : jval)
    (p : product) (lp : list product) (l : list cart_doc)
    (oc : option (container order)) :
  unique_keys l → one_line_per_product l →
  NoDup (p_id <$> lp) → p ∈ lp →
  (filter (λ c, c_user_id c = DEFAULT_USER ∧ c_product_id c = p_id p) l = []
   → has_key (Some DEFAULT_USER, uuid4) l = false) →
  ∃ w' lines,
    add_to_cart uuid4 (MkCartItem (p_id p) q) u
      (World (Some (Container lp None)) (Some (Container l None)) oc)
    = (w', Returned (Body (Message "Saved to Cosmos DB")))
    ∧ get_cart u' w' = (w', Returned (Body lines))
    ∧ filter (λ line, line_id line = p_id p) lines
      = [CartLine (p_id p) (p_name p) (p_price p) q
           (default "🛒" (p_image p)) (default "General" (p_category p))].
Proof.
  intros Hkeys Hone Hids Hp Hfresh.
  destruct (add_to_cart_once uuid4 (p_id p) q u
              (Some (Container lp None)) oc l Hkeys Hone Hfresh)
    as (l' & e & Hadd & Hline & Hpid & Hq).
  eexists _, _. split; [exact Hadd|]. split; [apply get_cart_run|].
  rewrite lines_of_product, list_filter_filter.
  rewrite (list_filter_iff _
    (λ c, c_user_id c = DEFAULT_USER ∧ c_product_id c = p_id p))
    by (intros x; tauto).
  rewrite Hline. cbn [omap list_omap]. rewrite Hpid.
  destruct (filter_first_of_unique p_id lp p Hids Hp) as [tl ->].
  cbn [head fmap option_fmap option_map]. by rewrite Hq.
Qed.

Lemma added_product_shows_in_cart_witness :
  ∃ w' lines,
    add_to_cart "c-1" (MkCartItem "8" 3) (JStr "demo")
      (World (Some (Container seed_catalog None))
         (Some (Container [] None)) None)
    = (w', Returned (Body (Message "Saved to Cosmos DB")))
    ∧ get_cart (JStr "demo") w' = (w', Returned (Body lines))
    ∧ filter (λ line, line_id line = "8") lines
      = [CartLine "8" "Desk Lamp LED" 2999 3 "💡" "Home"].
Proof.
  apply (added_product_shows_in_cart "c-1" 3 (JStr "demo") (JStr "demo")
           (Product "8" "Desk Lamp LED"
              "Adjustable LED desk lamp with USB port"
              (Some "Home") 2999 80 (Some "💡"))
           seed_catalog [] None).
  - unfold unique_keys. compute_done.
  - unfold one_line_per_product. compute_done.
  - compute_done.
  - compute_done.
  - intros _. reflexivity.
Defined.

Lemma filter_not_of_nil {A : Type} (P : A → Prop) `{∀ x, Decision (P x)}
    (l : list A) :
  filter P l = [] → filter (λ x, ¬ P x) l = l.
Proof.
  induction l as [|x l IH]; [done|].
  destruct (decide (P x)) as [Hx|Hx].
  - by rewrite filter_cons_True.
  - rewrite filter_cons_False by done. intros Hl.
    rewrite filter_cons_True by done. by rewrite IH.
Qed.

(** X15: adding a product that has no entry in the cart and removing it
    again gives back the cart as it was, whatever the quantity. *)
Theorem add_then_remove_restores (uuid4 pid : string) (q : Z) (u u' : jval)
    (pc : option (container product)) (oc : option (container order))
    (l : list cart_doc) :
  unique_keys l →
  filter (λ c, c_user_id c = DEFAULT_USER ∧ c_product_id c = pid) l = [] →
  has_key (Some DEFAULT_USER, uuid4) l = false →
  ∃ w1,
    add_to_cart uuid4 (MkCartItem pid q) u
      (World pc (Some (Container l None)) oc)
    = (w1, Returned (Body (Message "Saved to Cosmos DB")))
    ∧ remove_from_cart pid u' w1
      = (World pc (Some (Container l None)) oc,
         Returned (Body (Message "Removed from Cosmos DB"))).
Proof.
  intros Hkeys Hnone Hfresh. eexists. split.
  - rewrite add_to_cart_run. cbn [product_id quantity].
    by rewrite Hnone, Hfresh.
  - rewrite remove_from_cart_run.
    + rewrite filter_app, filter_cons_False, filter_nil, app_nil_r
        by (cbn; tauto).
      by rewrite filter_not_of_nil.
    + unfold unique_keys in *. rewrite fmap_app. apply NoDup_app.
      split; [done|]. split; [|apply NoDup_singleton].
      intros k Hk Hk'. apply list_elem_of_singleton in Hk'. subst k.
      by apply has_key_false in Hfresh.
Qed.

Lemma add_then_remove_restores_witness :
  ∃ w1,
    add_to_cart "c-2" (MkCartItem "3" 2) (JStr "demo")
      (World None (Some (Container [CartDoc "c-1" "demo_user" "7" 1] None))
         None)
    = (w1, Returned (Body (Message "Saved to Cosmos DB")))
    ∧ remove_from_cart "3" (JStr "demo") w1
      = (World None (Some (Container [CartDoc "c-1" "demo_user" "7" 1] None))
           None,
         Returned (Body (Message "Removed from Cosmos DB"))).
Proof.
  apply (add_then_remove_restores "c-2" "3" 2 (JStr "demo") (JStr "demo")
           None None [CartDoc "c-1" "demo_user" "7" 1]).
  - unfold unique_keys. compute_done.
  - reflexivity.
  - reflexivity.
Defined.

(** X16: removing a product twice is removing it once: after a first
    [remove_from_cart] a second one for the same product succeeds and
    changes nothing. *)
Theorem remove_from_cart_idempotent (pid : string) (u u' : jval)
    (pc : option (container product)) (oc : option (container order))
    (l : list cart_doc) :
  unique_keys l →
  ∃ w1,
    remove_from_cart pid u (World pc (Some (Container l None)) oc)
    = (w1, Returned (Body (Message "Removed from Cosmos DB")))
    ∧ remove_from_cart pid u' w1
      = (w1, Returned (Body (Message "Removed from Cosmos DB"))).
Proof.
  intros Hkeys. eexists. split; [by apply remove_from_cart_run|].
  rewrite remove_from_cart_run.
  - rewrite list_filter_filter.
    rewrite (list_filter_iff _
      (λ c, ¬ (c_user_id c = DEFAULT_USER ∧ c_product_id c = pid)));
      [done|]. intros x. tauto.
  - unfold unique_keys in *.
    apply (sublist_NoDup _ (doc_key <$> l)); [done|].
    apply fmap_sublist, sublist_filter.
Qed.

Lemma remove_from_cart_idempotent_witness :
  ∃ w1,
    remove_from_cart "3" (JStr "demo")
      (World None
         (Some (Container [CartDoc "c-1" "demo_user" "3" 2;
                           CartDoc "c-2" "demo_user" "7" 1] None)) None)
    = (w1, Returned (Body (Message "Removed from Cosmos DB")))
    ∧ remove_from_cart "3" (JStr "demo") w1
      = (w1, Returned (Body (Message "Removed from Cosmos DB"))).
Proof.
  apply (remove_from_cart_idempotent "3" (JStr "demo") (JStr "demo")
           None None [CartDoc "c-1" "demo_user" "3" 2;
                      CartDoc "c-2" "demo_user" "7" 1]).
  unfold unique_keys. compute_done.
Defined.

(** X17: the writing handlers keep the cart well-formed: if keys are
    unique and no (user, product) pair has two entries before
    [add_to_cart], [remove_from_cart] or [create_order], both hold after
    it, whether the handler succeeded or answered an error. *)
Theorem cart_invariants_kept (w : world) (cc : container cart_doc) :
  cart_container w = Some cc →
  unique_keys (items cc) ∧ one_line_per_product (items cc) →
  ∀ w',
    ((∃ uuid4 item u, w' = (add_to_cart uuid4 item u w).1)
     ∨ (∃ pid u, w' = (remove_from_cart pid u w).1)
     ∨ (∃ uuid4 utcnow u, w' = (create_order uuid4 utcnow u w).1)) →
    ∃ cc',
      cart_container w' = Some cc'
      ∧ unique_keys (items cc') ∧ one_line_per_product (items cc').
Proof.
  destruct w as [pc cw oc]. cbn [cart_container]. intros -> Hinv w' Hw'.
  destruct cc as [l [e|]]; cbn [items] in Hinv.
  - exists (Container l (Some e)). split; [|done].
    destruct Hw' as [(uuid4 & item & u & ->)|[(pid & u & ->)
      |(uuid4 & utcnow & u & ->)]]; try reflexivity.
    by destruct oc.
  - destruct Hw' as [(uuid4 & item & u & ->)|[(pid & u & ->)
      |(uuid4 & utcnow & u & ->)]].
    + destruct (cart_invariants_add_to_cart uuid4 item u pc oc l Hinv)
        as (l' & -> & Hinv'). by eexists.
    + destruct (cart_invariants_remove_from_cart pid u pc oc l Hinv)
        as (l' & -> & Hinv'). by eexists.
    + destruct oc as [[lo [e|]]|].
      * exists (Container l None). by split.
      * destruct (cart_invariants_create_order uuid4 utcnow u pc l lo Hinv)
          as (l' & lo' & -> & Hinv'). by eexists.
      * exists (Container l None). by split.
Qed.

Lemma cart_invariants_kept_witness :
  ∃ cc',
    cart_container
      (add_to_cart "c-2" (MkCartItem "3" 2) (JStr "demo")
         (World None
            (Some (Container [CartDoc "c-1" "demo_user" "7" 1] None))
            None)).1
    = Some cc'
    ∧ unique_keys (items cc') ∧ one_line_per_product (items cc').
Proof.
  apply (cart_invariants_kept
           (World None
              (Some (Container [CartDoc "c-1" "demo_user" "7" 1] None)) None)
           (Container [CartDoc "c-1" "demo_user" "7" 1] None) eq_refl).
  - split; [unfold unique_keys|unfold one_line_per_product]; compute_done.
  - left. by exists "c-2", (MkCartItem "3" 2), (JStr "demo").
Defined.

(** ** Reads do not write *)

Lemma rebind_products_same (w : world) (pc : container product) :
  products_container w = Some pc → rebind products pc w = w.
Proof. destruct w. cbn. by intros ->. Qed.

Lemma enrich_world (l : list cart_doc) :
  ∀ (acc : list cart_line) (w : world), (enrich l acc w).1 = w.
Proof.
  induction l as [|item rest IH]; intros acc w; [done|].
  rewrite enrich_step.
  destruct (products_container w) as [pc|] eqn:Hpc; [|done].
  destruct (fault pc); [done|].
  rewrite (rebind_products_same w pc Hpc).
  destruct (filter _ (items pc)); apply IH.
Qed.

Lemma category_of_each_world (l : list (option string)) (w : world) :
  (category_of_each l w).1 = w.
Proof.
  induction l as [|[k|] l IH]; [done| |done].
  cbn [category_of_each]. unfold_monad.
  destruct (category_of_each l w) as [w' [ks|e]]; by cbn in *.
Qed.

(** X18: the handlers of the GET routes leave every container as it
    was, whatever they answer and whatever the state of the store. *)
Theorem reads_leave_store_unchanged (w : world) :
  (∀ category, (list_products category w).1 = w)
  ∧ (∀ q, (search_products q w).1 = w)
  ∧ (∀ product_id, (get_product product_id w).1 = w)
  ∧ (get_categories w).1 = w
  ∧ (∀ u, (get_cart u w).1 = w)
  ∧ (∀ u, (get_orders u w).1 = w).
Proof.
  repeat split.
  - intros category. destruct w as [[[lp [e|]]|] cc oc]; try done;
      unfold list_products; unfold_monad; unfold query_items, guarded;
      by destruct (truthy category).
  - intros q. by destruct w as [[[lp [e|]]|] cc oc].
  - intros product_id. by rewrite get_product_run.
  - destruct w as [[[lp [e|]]|] cc oc]; try done.
    unfold get_categories. unfold_monad.
    unfold query_distinct_category, guarded.
    cbn -[category_of_each remove_dups].
    pose proof (category_of_each_world (remove_dups (p_category <$> lp))
      (World (Some (Container lp None)) cc oc)) as Hw.
    destruct (category_of_each _ _) as [w' [ks|e]]; by cbn in *.
  - intros u. destruct w as [[pc|] [[lc [e|]]|] oc]; try done.
    unfold get_cart. unfold_monad. unfold query_items, guarded.
    cbn -[enrich filter].
    pose proof (enrich_world (filter (λ c, c_user_id c = DEFAULT_USER) lc)
      [] (World (Some pc) (Some (Container lc None)) oc)) as Hw.
    destruct (enrich _ _ _) as [w' [ls|e]]; by cbn in *.
  - intros u. by destruct w as [pc cc [[lo [e|]]|]].
Qed.

(** ** Login and the protected routes *)

Lemma issued_token_verifies {J : Jose} (u : string) (t0 now : datetime) :
  (let claims :=
     <["exp" := JNum (timegm (t0 + timedelta_minutes 60))]>
       {["sub" := JStr u]} in
   reads_back
     (Jws JWT_ALGORITHM claims (hmac JWT_SECRET_KEY JWT_ALGORITHM claims))) →
  now ≤ t0 + timedelta_minutes ACCESS_TOKEN_EXPIRE_MINUTES →
  get_current_user now
    (Some ("Bearer " +:+ create_access_token t0 {["sub" := JStr u]} None))
  = Returned (JStr u).
Proof.
  intros Hread Hnow. cbn zeta in Hread. unfold reads_back in Hread.
  rewrite <- create_access_token_sub in Hread.
  unfold ACCESS_TOKEN_EXPIRE_MINUTES in Hnow.
  apply (issued_token_accepted u _ now _ Hread). by apply timegm_mono.
Qed.

(** X19: a login with the demo credentials returns a bearer token that,
    presented within 60 minutes, opens the protected routes: the handler
    runs as for the principal "demo".  Any other credentials are
    answered 401, and a protected route called without a header is
    answered 401 without its handler being run. *)
Theorem login_opens_protected_routes {J : Jose} (t0 now : datetime)
    (body : LoginRequest) :
  (let claims :=
     <["exp" := JNum (timegm (t0 + timedelta_minutes 60))]>
       {["sub" := JStr DEMO_USERNAME]} in
   reads_back
     (Jws JWT_ALGORITHM claims (hmac JWT_SECRET_KEY JWT_ALGORITHM claims))) →
  (username body = DEMO_USERNAME → password body = DEMO_PASSWORD →
   now ≤ t0 + timedelta_minutes ACCESS_TOKEN_EXPIRE_MINUTES →
   ∃ token,
     auth_login t0 body = Returned (TokenResponse token "bearer")
     ∧ ∀ (A : Type) (handler : jval → M A) (w : world),
         Depends now (Some ("Bearer " +:+ token)) handler w
         = handler (JStr "demo") w)
  ∧ ((username body ≠ DEMO_USERNAME ∨ password body ≠ DEMO_PASSWORD) →
     auth_login t0 body = Raised (HTTPException 401 "Invalid credentials"))
  ∧ (∀ (A : Type) (handler : jval → M A) (w : world),
       Depends now None handler w
       = (w, Raised (HTTPException 401 "Not authenticated"))).
Proof.
  intros Hread. split; [|split].
  - intros Hu Hp Hnow. eexists. split.
    + rewrite auth_login_issues. by rewrite decide_True.
    + intros A handler w. unfold Depends.
      by rewrite (issued_token_verifies DEMO_USERNAME t0 now Hread Hnow).
  - intros Hbad. rewrite auth_login_issues. rewrite decide_False; [done|].
    tauto.
  - done.
Qed.

Lemma login_opens_protected_routes_witness :
  ∃ token,
    auth_login (J := table_jose) 0 (MkLoginRequest "demo" "demo123")
    = Returned (TokenResponse token "bearer")
    ∧ Depends (J := table_jose) 1800000000 (Some ("Bearer " +:+ token))
        get_cart (World None None None)
      = get_cart (JStr "demo") (World None None None).
Proof.
  destruct (proj1 (login_opens_protected_routes (J := table_jose) 0
                     1800000000 (MkLoginRequest "demo" "demo123") eq_refl)
              eq_refl eq_refl)
    as (token & Hlogin & Hopen).
  { unfold timedelta_minutes, ACCESS_TOKEN_EXPIRE_MINUTES. lia. }
  exists token. split; [exact Hlogin|]. apply Hopen.
Defined.

(** X20: only tokens that name the algorithm HS256 are accepted: a
    token of any other algorithm is answered 401 even when its tag
    matches. *)
Theorem other_algorithms_rejected {J : Jose} (now : datetime)
    (token : string) (t : jws) :
  jws_parse token = Some t → jws_alg t ≠ JWT_ALGORITHM →
  get_current_user now (Some ("Bearer " +:+ token))
  = Raised (HTTPException 401 "Invalid or expired token").
Proof.
  intros Hp Halg. apply jwt_decode_rejects. right. exists t. split; [done|].
  by left.
Qed.

Lemma other_algorithms_rejected_witness :
  get_current_user (J := header_jose) 0 (Some "Bearer none")
  = Raised (HTTPException 401 "Invalid or expired token").
Proof.
  apply (other_algorithms_rejected (J := header_jose) 0 "none"
           (Jws "none" {["sub" := JStr "demo"]} "cloudmart-dev-secret-key"));
    [reflexivity | discriminate].
Defined.

(** X21: the expiry is checked only when the token carries one: a token
    of algorithm HS256 with a matching tag whose claim set holds a
    subject and none of [exp], [nbf], [iat], [aud], [jti] and [at_hash]
    is accepted at every time. *)
Theorem token_without_exp_never_expires {J : Jose} (now : datetime)
    (token u : string) (t : jws) :
  jws_parse token = Some t → jws_alg t = JWT_ALGORITHM →
  jws_sig t = hmac JWT_SECRET_KEY (jws_alg t) (jws_claims t) →
  jws_claims t !! "sub" = Some (JStr u) →
  jws_claims t !! "exp" = None → jws_claims t !! "nbf" = None →
  jws_claims t !! "iat" = None → jws_claims t !! "aud" = None →
  jws_claims t !! "jti" = None → jws_claims t !! "at_hash" = None →
  get_current_user now (Some ("Bearer " +:+ token)) = Returned (JStr u).
Proof.
  intros Hp Halg Hsig Hsub Hexp Hnbf Hiat Haud Hjti Hat.
  rewrite get_current_user_bearer.
  rewrite (jwt_decode_run now token t Hp Halg Hsig).
  rewrite validate_claims_plain; try done; [|by left|right; by exists u].
  unfold mbind, outcome_bind. by rewrite Hsub.
Qed.

Lemma token_without_exp_never_expires_witness :
  get_current_user (J := header_jose) 4102444800000000 (Some "Bearer HS256")
  = Returned (JStr "demo").
Proof.
  apply (token_without_exp_never_expires (J := header_jose)
           4102444800000000 "HS256" "demo"
           (Jws "HS256" {["sub" := JStr "demo"]} "cloudmart-dev-secret-key"));
    reflexivity.
Defined.


